(** * Segmind client: dispatch pipeline, response handling and retry wrapper

    A shallow embedding of the Python sources

    - [segmind_api.py]   : [SegmindAPI] (constructor, [_handle_response],
                           [text_to_image], [image_to_image], the facades),
    - [segmind_utils.py] : [image_to_base64], [base64_to_image],
    - [examples.py]      : [run_with_backoff].

    Python values that travel in JSON bodies are an inductive type,
    dictionaries are [gmap]s, exceptions are a class tag with a message,
    and side effects (HTTP posts, file reads, sleeping, random draws) are
    threaded through an explicit [World]. *)

From Stdlib Require Import ZArith QArith Lqa String Ascii List Lia Bool.
From stdpp Require Import gmap strings pretty.

Local Open Scope Z_scope.

(** ** Python values *)

Abbreviation bytes := (list Byte.byte).

(** Values of the JSON fragment of Python: what [response.json()] yields and
    what is sent as the request body.  [JNull] is Python's [None]; floats are
    carried as rationals. *)
#[local] Unset Elimination Schemes.
Inductive JValue : Type :=
| JNull
| JBool (b : bool)
| JInt (n : Z)
| JFloat (q : Q)
| JStr (s : string)
| JArr (l : list JValue)
| JObj (m : gmap string JValue).
#[local] Set Elimination Schemes.

(** Exception classes that the modelled code raises or lets through.
    [PlainException] is the built-in [Exception] itself. *)
Inductive ExnClass : Type :=
| PlainException
| ValueError
| TypeError
| UnboundLocalError
| FileNotFoundError
| ConnectionError
| UnidentifiedImageError
| ImageSaveError
| BinasciiError
| KeyError.

(** An exception object: its class and [str(e)]. *)
Record PyExn : Type := mkExn { exn_class : ExnClass; exn_msg : string }.

Inductive Outcome (A : Type) : Type :=
| Return (a : A)
| Raise (e : PyExn).
Arguments Return {A} a.
Arguments Raise {A} e.

(** ** String helpers (Python [in], [startswith], [lower], [split]) *)

(** [s.startswith(pre)]. *)
Fixpoint startswith (s pre : string) : bool :=
  match pre, s with
  | EmptyString, _ => true
  | String a pre', String b s' => Ascii.eqb a b && startswith s' pre'
  | String _ _, EmptyString => false
  end.

(** [sub in s] on strings. *)
Fixpoint str_in (sub s : string) : bool :=
  startswith s sub ||
  match s with
  | EmptyString => false
  | String _ s' => str_in sub s'
  end.

Definition lower_ascii (c : ascii) : ascii :=
  let n := N_of_ascii c in
  if ((65 <=? n) && (n <=? 90))%N then ascii_of_N (n + 32) else c.

Fixpoint lower (s : string) : string :=
  match s with
  | EmptyString => EmptyString
  | String c s' => String (lower_ascii c) (lower s')
  end.

(** [s.split(",", 1)[1]] when ["," in s]: the text after the first comma. *)
Fixpoint after_first_comma (s : string) : option string :=
  match s with
  | EmptyString => None
  | String c s' => if Ascii.eqb c "," then Some s' else after_first_comma s'
  end.

(** [str(n)] for a Python int. *)
Definition str_of_int (n : Z) : string := pretty n.

Definition is_not_None {A} (o : option A) : bool :=
  match o with Some _ => true | None => false end.

(** ** The imaging library

    [PIL.Image.open] and [Image.save] belong to Pillow, not to this
    repository; the client is verified against their interface.  [None]
    stands for the library raising (unreadable bytes, unsupported mode). *)
Class ImageCodec : Type := {
  Image : Type;
  Image_open : bytes -> option Image;
  Image_save : Image -> string -> option bytes;
  pixels : Image -> list Z
}.

(** A codec whose images are their own byte string; used to run the model on
    concrete inputs. *)
Definition RawCodec : ImageCodec := {|
  Image := bytes;
  Image_open := fun b => Some b;
  Image_save := fun img _ => Some img;
  pixels := fun img => map (fun b => Z.of_N (Byte.to_N b)) img
|}.

(** ** HTTP exchange *)

(** A [requests.Response] as the client reads it: [json] is what
    [response.json()] returns, [None] when it raises [ValueError]. *)
Record Response : Type := mkResponse {
  status_code : Z;
  headers : gmap string string;
  content : bytes;
  json : option JValue
}.

(** One [requests.post(url, json=..., headers=...)] call. *)
Record Request : Type := mkRequest {
  req_url : string;
  req_json : gmap string JValue;
  req_headers : gmap string string
}.

(** ** The world the client runs in *)
Record World : Type := mkWorld {
  network : list Response;       (* replies the server will give, in order *)
  sent : list Request;           (* posts performed so far, oldest first *)
  files : gmap string bytes;     (* readable files by path *)
  uniform : nat -> Q;            (* k-th value of random.uniform(0, 0.1) *)
  drawn : nat;                   (* random draws consumed *)
  slept : list Q                 (* arguments of time.sleep, oldest first *)
}.

Definition M (A : Type) : Type := World -> Outcome A * World.

Definition ret {A} (a : A) : M A := fun w => (Return a, w).
Definition raise {A} (c : ExnClass) (msg : string) : M A :=
  fun w => (Raise (mkExn c msg), w).
Definition bind {A B} (m : M A) (k : A -> M B) : M B :=
  fun w => match m w with
           | (Return a, w') => k a w'
           | (Raise e, w') => (Raise e, w')
           end.
Definition lift {A} (o : Outcome A) : M A := fun w => (o, w).

Declare Scope py_scope.
Delimit Scope py_scope with py.
Notation "x <- m ;; k" := (bind m (fun x => k))
  (at level 100, m at next level, right associativity) : py_scope.
Local Open Scope py_scope.

(** [requests.post]: the request is logged and the next scripted reply is
    consumed; with no reply left the transport fails. *)
Definition post (url : string) (body : gmap string JValue)
    (hdrs : gmap string string) : M Response :=
  fun w =>
    let rq := mkRequest url body hdrs in
    match network w with
    | r :: rest =>
        (Return r,
         mkWorld rest (sent w ++ [rq]) (files w) (uniform w) (drawn w) (slept w))
    | [] =>
        (Raise (mkExn ConnectionError "connection failed"),
         mkWorld [] (sent w ++ [rq]) (files w) (uniform w) (drawn w) (slept w))
    end.

(** [open(path, 'rb').read()]. *)
Definition read_file (path : string) : M bytes :=
  fun w =>
    match files w !! path with
    | Some b => (Return b, w)
    | None =>
        (Raise (mkExn FileNotFoundError
                  ("[Errno 2] No such file or directory: '" +:+ path +:+ "'")), w)
    end.

(** [random.uniform(0, 0.1)]. *)
Definition random_uniform : M Q :=
  fun w =>
    (Return (uniform w (drawn w)),
     mkWorld (network w) (sent w) (files w) (uniform w) (S (drawn w)) (slept w)).

(** [time.sleep(t)]; a negative argument is rejected with [ValueError]. *)
Definition sleep (t : Q) : M unit :=
  fun w =>
    if Qle_bool 0 t then
      (Return tt,
       mkWorld (network w) (sent w) (files w) (uniform w) (drawn w) (slept w ++ [t]))
    else (Raise (mkExn ValueError "sleep length must be non-negative"), w).

(** ** Base64 (Python's [base64.b64encode] and [base64.b64decode])

    The encoder is RFC 4648 with padding.  The decoder follows the lenient
    mode in which [b64decode] runs by default: characters outside the
    alphabet are skipped, a completed pad sequence ends the input, and
    leftover sextets are an error.  Shifts and masks on sextets are written
    as divisions and remainders by powers of two. *)
Module Base64.

Definition alphabet : string :=
  "ABCDEFGHIJKLMNOPQRSTUVWXYZabcdefghijklmnopqrstuvwxyz0123456789+/".

Definition pad : ascii := "="%char.

Definition char_of (n : N) : ascii :=
  match String.get (N.to_nat n) alphabet with
  | Some c => c
  | None => pad
  end.

Fixpoint index_of (c : ascii) (s : string) : option N :=
  match s with
  | EmptyString => None
  | String d s' =>
      if Ascii.eqb c d then Some 0%N
      else match index_of c s' with
           | Some i => Some (N.succ i)
           | None => None
           end
  end.

Definition value_of (c : ascii) : option N := index_of c alphabet.

Definition byte_of (n : N) : Byte.byte :=
  match Byte.of_N n with Some b => b | None => Byte.x00 end.

Fixpoint b64encode (bs : bytes) : string :=
  match bs with
  | [] => EmptyString
  | [a] =>
      let a := Byte.to_N a in
      String (char_of (a / 4))
        (String (char_of (a mod 4 * 16)) (String pad (String pad EmptyString)))
  | [a; b] =>
      let a := Byte.to_N a in
      let b := Byte.to_N b in
      String (char_of (a / 4))
        (String (char_of (a mod 4 * 16 + b / 16))
           (String (char_of (b mod 16 * 4)) (String pad EmptyString)))
  | a :: b :: c :: rest =>
      let a := Byte.to_N a in
      let b := Byte.to_N b in
      let c := Byte.to_N c in
      String (char_of (a / 4))
        (String (char_of (a mod 4 * 16 + b / 16))
           (String (char_of (b mod 16 * 4 + c / 64))
              (String (char_of (c mod 64)) (b64encode rest))))
  end%N.

(** The decoding loop: [quad_pos] counts the sextets of the current group,
    [leftchar] holds the bits not yet emitted, [pads] the pad characters seen
    since the last sextet. *)
Fixpoint a2b_loop (s : string) (quad_pos : nat) (leftchar pads : N)
    (out : bytes) : Outcome bytes :=
  match s with
  | EmptyString =>
      match quad_pos with
      | O => Return out
      | 1%nat =>
          Raise (mkExn BinasciiError
                   "Invalid base64-encoded string: number of data characters cannot be 1 more than a multiple of 4")
      | _ => Raise (mkExn BinasciiError "Incorrect padding")
      end
  | String c s' =>
      if Ascii.eqb c pad then
        if (2 <=? quad_pos)%nat then
          if (4 <=? N.of_nat quad_pos + (pads + 1))%N then Return out
          else a2b_loop s' quad_pos leftchar (pads + 1)%N out
        else a2b_loop s' quad_pos leftchar pads out
      else
        match value_of c with
        | None => a2b_loop s' quad_pos leftchar pads out
        | Some v =>
            match quad_pos with
            | O => a2b_loop s' 1%nat v 0%N out
            | 1%nat =>
                a2b_loop s' 2%nat (v mod 16)%N 0%N
                  (out ++ [byte_of (leftchar * 4 + v / 16)%N])
            | 2%nat =>
                a2b_loop s' 3%nat (v mod 4)%N 0%N
                  (out ++ [byte_of (leftchar * 16 + v / 4)%N])
            | _ =>
                a2b_loop s' O 0%N 0%N (out ++ [byte_of (leftchar * 64 + v)%N])
            end
        end
  end.

(** What the proofs need of an alphabet character, as a check that can be
    run over the 64 sextets. *)
Definition sextet_ok (n : N) : bool :=
  match value_of (char_of n) with
  | Some m => (m =? n)%N
  | None => false
  end
  && negb (Ascii.eqb (char_of n) pad)
  && negb (Ascii.eqb (char_of n) ",")
  && (N_of_ascii (char_of n) <? 128)%N.

Definition is_ascii (s : string) : bool :=
  forallb (fun c => (N_of_ascii c <? 128)%N) (list_ascii_of_string s).

(** [base64.b64decode(s)] for a [str] argument. *)
Definition b64decode (s : string) : Outcome bytes :=
  if is_ascii s then a2b_loop s O 0%N 0%N []
  else Raise (mkExn ValueError "string argument should contain only ASCII characters").

End Base64.

(** ** [segmind_api.py] *)
Section Client.

Context `{PIL : ImageCodec}.

(** [str(v)] of a value that is not a string: Python's [repr], left to the
    interpreter. *)
Variable py_repr : JValue -> string.

(** What an f-string interpolation of [v] produces. *)
Definition py_str (v : JValue) : string :=
  match v with
  | JStr s => s
  | _ => py_repr v
  end.

(** What a dispatch hands back: a decoded image, the parsed JSON value, or
    the raw body. *)
Inductive PyResult : Type :=
| RImage (img : Image)
| RJson (v : JValue)
| RBytes (b : bytes).

Record SegmindAPI : Type := mkAPI {
  api_key : string;
  api_headers : gmap string string
}.

Definition BASE_URL : string := "https://api.segmind.com/v1/".

(** The value of an optional string when it is truthy. *)
Definition truthy_val (o : option string) : option string :=
  match o with
  | Some s => if String.eqb s "" then None else Some s
  | None => None
  end.

(** Python's [a or b] on optional strings. *)
Definition py_or (a b : option string) : option string :=
  match truthy_val a with
  | Some _ => a
  | None => b
  end.

(** [SegmindAPI.__init__(api_key)], reading [os.environ]. *)
Definition __init__ (key : option string) (environ : gmap string string)
    : Outcome SegmindAPI :=
  match truthy_val (py_or key (environ !! "SEGMIND_API_KEY")) with
  | None =>
      Raise (mkExn ValueError
               "API key must be provided either as an argument or as SEGMIND_API_KEY environment variable.")
  | Some k =>
      Return (mkAPI k (<["x-api-key" := k]> (<["Content-Type" := "application/json"]> ∅)))
  end.

(** ['error' in error_data]. *)
Definition has_error_key (v : JValue) : Outcome bool :=
  match v with
  | JObj m => Return (is_not_None (m !! "error"))
  | JArr l =>
      Return (existsb (fun x => match x with
                                | JStr s => String.eqb s "error"
                                | _ => false
                                end) l)
  | JStr s => Return (str_in "error" s)
  | _ => Raise (mkExn TypeError "argument of this type is not iterable")
  end.

(** [error_data['error']]. *)
Definition get_error_key (v : JValue) : Outcome JValue :=
  match v with
  | JObj m =>
      match m !! "error" with
      | Some x => Return x
      | None => Raise (mkExn KeyError "'error'")
      end
  | JArr _ => Raise (mkExn TypeError "list indices must be integers or slices, not str")
  | JStr _ => Raise (mkExn TypeError "string indices must be integers, not 'str'")
  | _ => Raise (mkExn TypeError "object is not subscriptable")
  end.

(** The message assembled in the failure branch (the same lines appear in
    [_handle_response] and in [veo_3]); only [ValueError] from
    [response.json()] is swallowed. *)
Definition failure_message (response : Response) : Outcome string :=
  let error_message :=
    "API request failed with status code " +:+ str_of_int (status_code response) in
  match json response with
  | None => Return error_message
  | Some error_data =>
      match has_error_key error_data with
      | Raise e => Raise e
      | Return false => Return error_message
      | Return true =>
          match get_error_key error_data with
          | Raise e => Raise e
          | Return v => Return (error_message +:+ ": " +:+ py_str v)
          end
      end
  end.

Definition header_get (h : gmap string string) (k dflt : string) : string :=
  match h !! k with Some v => v | None => dflt end.

Definition _handle_response (response : Response) : Outcome PyResult :=
  if status_code response =? 200 then
    if startswith (header_get (headers response) "Content-Type" "") "image/" then
      match Image_open (content response) with
      | Some img => Return (RImage img)
      | None => Raise (mkExn UnidentifiedImageError "cannot identify image file")
      end
    else
      match json response with
      | Some v => Return (RJson v)
      | None => Return (RBytes (content response))
      end
  else
    match failure_message response with
    | Return error_message => Raise (mkExn PlainException error_message)
    | Raise e => Raise e
    end.

Definition get_remaining_credits (response : Response) : option string :=
  headers response !! "x-remaining-credits".

Definition text_to_image (self : SegmindAPI) (model_name : string)
    (params : gmap string JValue) : M PyResult :=
  let url := BASE_URL +:+ model_name in
  response <- post url params (api_headers self) ;;
  lift (_handle_response response).

(** [sum(x is not None for x in xs)]. *)
Fixpoint count_not_None (xs : list (option string)) : Z :=
  match xs with
  | [] => 0
  | x :: xs' => (if is_not_None x then 1 else 0) + count_not_None xs'
  end.

Definition image_to_image (self : SegmindAPI) (model_name : string)
    (image_url image_path image_base64 : option string)
    (params : gmap string JValue) : M PyResult :=
  if negb (count_not_None [image_url; image_path; image_base64] =? 1) then
    raise ValueError
      "Exactly one of image_url, image_path, or image_base64 must be provided."
  else
    let url := BASE_URL +:+ model_name in
    match truthy_val image_url with
    | Some u =>
        response <- post url (<["image" := JStr u]> params) (api_headers self) ;;
        lift (_handle_response response)
    | None =>
        match truthy_val image_path with
        | Some p =>
            img_file <- read_file p ;;
            let img_data := Base64.b64encode img_file in
            response <- post url
                          (<["image" := JStr ("data:image/jpeg;base64," +:+ img_data)]> params)
                          (api_headers self) ;;
            lift (_handle_response response)
        | None =>
            match truthy_val image_base64 with
            | Some b =>
                response <- post url (<["image" := JStr b]> params) (api_headers self) ;;
                lift (_handle_response response)
            | None =>
                raise UnboundLocalError
                  "cannot access local variable 'response' where it is not associated with a value"
            end
        end
    end.

(** *** Model facades *)

(** Passing [**params] on to a method whose first named parameter is
    [model_name]: an entry of that name collides with the positional
    argument. *)
Definition forward {A} (params : gmap string JValue) (call : M A) : M A :=
  if is_not_None (params !! "model_name") then
    raise TypeError "got multiple values for argument 'model_name'"
  else call.

(** An entry that is kept only when its value is not [None]. *)
Definition set_opt (k : string) (v : option JValue)
    (m : gmap string JValue) : gmap string JValue :=
  match v with
  | Some x => <[k := x]> m
  | None => m
  end.

(** [if value: params[k] = value]. *)
Definition set_truthy (k : string) (v : option string)
    (m : gmap string JValue) : gmap string JValue :=
  match truthy_val v with
  | Some x => <[k := JStr x]> m
  | None => m
  end.

Definition sdxl (self : SegmindAPI) (prompt : string)
    (negative_prompt : option string) (steps seed : option Z)
    (aspect_ratio : option string) (base64 : bool)
    (kwargs : gmap string JValue) : M PyResult :=
  let params :=
    kwargs ∪
    set_opt "aspect_ratio" (JStr <$> aspect_ratio)
      (set_opt "seed" (JInt <$> seed)
         (set_opt "steps" (JInt <$> steps)
            (set_opt "negative_prompt" (JStr <$> negative_prompt)
               (<["base64" := JBool base64]> (<["prompt" := JStr prompt]> ∅))))) in
  forward params (text_to_image self "sdxl1.0-txt2img" params).

Definition sd_outpainting (self : SegmindAPI)
    (image_url image_path image_base64 prompt : option string)
    (kwargs : gmap string JValue) : M PyResult :=
  let params := kwargs ∪ set_truthy "prompt" prompt ∅ in
  forward params
    (image_to_image self "sd-outpainting" image_url image_path image_base64 params).

Definition qr_generator (self : SegmindAPI) (prompt qr_text : string)
    (kwargs : gmap string JValue) : M PyResult :=
  let params :=
    kwargs ∪ <["qr_text" := JStr qr_text]> (<["prompt" := JStr prompt]> ∅) in
  forward params (text_to_image self "qr-code-generator" params).

Definition word2img (self : SegmindAPI)
    (image_url image_path image_base64 prompt : option string)
    (kwargs : gmap string JValue) : M PyResult :=
  let params := kwargs ∪ set_truthy "prompt" prompt ∅ in
  forward params
    (image_to_image self "word2img" image_url image_path image_base64 params).

Definition background_removal (self : SegmindAPI)
    (image_url image_path image_base64 : option string)
    (kwargs : gmap string JValue) : M PyResult :=
  forward kwargs
    (image_to_image self "background-removal" image_url image_path image_base64 kwargs).

Definition codeformer (self : SegmindAPI)
    (image_url image_path image_base64 : option string)
    (kwargs : gmap string JValue) : M PyResult :=
  forward kwargs
    (image_to_image self "codeformer" image_url image_path image_base64 kwargs).

Definition sam (self : SegmindAPI)
    (image_url image_path image_base64 : option string)
    (kwargs : gmap string JValue) : M PyResult :=
  forward kwargs
    (image_to_image self "sam" image_url image_path image_base64 kwargs).

Definition face_swap (self : SegmindAPI)
    (image_url image_path image_base64 mask_url : option string)
    (kwargs : gmap string JValue) : M PyResult :=
  let params := kwargs ∪ set_truthy "mask" mask_url ∅ in
  forward params
    (image_to_image self "face-swap" image_url image_path image_base64 params).

Definition controlnet (self : SegmindAPI) (prompt : string)
    (image_url image_path image_base64 : option string) (option : string)
    (kwargs : gmap string JValue) : M PyResult :=
  let params :=
    kwargs ∪ <["option" := JStr option]> (<["prompt" := JStr prompt]> ∅) in
  forward params
    (image_to_image self "controlnet" image_url image_path image_base64 params).

(** The video call bypasses [_handle_response]: the body is returned as it
    is on status 200. *)
Definition veo_3 (self : SegmindAPI) (prompt : string) (seed : option Z)
    (kwargs : gmap string JValue) : M PyResult :=
  let params :=
    kwargs ∪ set_opt "seed" (JInt <$> seed) (<["prompt" := JStr prompt]> ∅) in
  let url := BASE_URL +:+ "veo-3" in
  response <- post url params (api_headers self) ;;
  if status_code response =? 200 then ret (RBytes (content response))
  else
    match failure_message response with
    | Return error_message => raise PlainException error_message
    | Raise e => lift (Raise e)
    end.

Definition flux_kontext_pro (self : SegmindAPI) (prompt : string)
    (input_image : option string) (seed : Z) (aspect_ratio : string)
    (kwargs : gmap string JValue) : M PyResult :=
  let params :=
    set_truthy "input_image" input_image
      (kwargs ∪
       <["aspect_ratio" := JStr aspect_ratio]>
         (<["seed" := JInt seed]> (<["prompt" := JStr prompt]> ∅))) in
  let url := BASE_URL +:+ "flux-kontext-pro" in
  response <- post url params (api_headers self) ;;
  lift (_handle_response response).

Definition llava_13b (self : SegmindAPI) (messages : JValue) : M PyResult :=
  let params := <["messages" := messages]> ∅ in
  let url := BASE_URL +:+ "llava-13b" in
  response <- post url params (api_headers self) ;;
  lift (_handle_response response).

(** *** Every public dispatch of the client, as data *)
Inductive Call : Type :=
| CallTextToImage (model_name : string) (params : gmap string JValue)
| CallImageToImage (model_name : string)
    (image_url image_path image_base64 : option string)
    (params : gmap string JValue)
| CallSdxl (prompt : string) (negative_prompt : option string)
    (steps seed : option Z) (aspect_ratio : option string) (base64 : bool)
    (kwargs : gmap string JValue)
| CallSdOutpainting (image_url image_path image_base64 prompt : option string)
    (kwargs : gmap string JValue)
| CallQrGenerator (prompt qr_text : string) (kwargs : gmap string JValue)
| CallWord2img (image_url image_path image_base64 prompt : option string)
    (kwargs : gmap string JValue)
| CallBackgroundRemoval (image_url image_path image_base64 : option string)
    (kwargs : gmap string JValue)
| CallCodeformer (image_url image_path image_base64 : option string)
    (kwargs : gmap string JValue)
| CallSam (image_url image_path image_base64 : option string)
    (kwargs : gmap string JValue)
| CallFaceSwap (image_url image_path image_base64 mask_url : option string)
    (kwargs : gmap string JValue)
| CallControlnet (prompt : string)
    (image_url image_path image_base64 : option string) (option : string)
    (kwargs : gmap string JValue)
| CallVeo3 (prompt : string) (seed : option Z) (kwargs : gmap string JValue)
| CallFluxKontextPro (prompt : string) (input_image : option string)
    (seed : Z) (aspect_ratio : string) (kwargs : gmap string JValue)
| CallLlava13b (messages : JValue).

Definition run_call (self : SegmindAPI) (c : Call) : M PyResult :=
  match c with
  | CallTextToImage m p => text_to_image self m p
  | CallImageToImage m u pth b p => image_to_image self m u pth b p
  | CallSdxl p np st sd ar b64 kw => sdxl self p np st sd ar b64 kw
  | CallSdOutpainting u pth b pr kw => sd_outpainting self u pth b pr kw
  | CallQrGenerator p q kw => qr_generator self p q kw
  | CallWord2img u pth b pr kw => word2img self u pth b pr kw
  | CallBackgroundRemoval u pth b kw => background_removal self u pth b kw
  | CallCodeformer u pth b kw => codeformer self u pth b kw
  | CallSam u pth b kw => sam self u pth b kw
  | CallFaceSwap u pth b mk kw => face_swap self u pth b mk kw
  | CallControlnet p u pth b o kw => controlnet self p u pth b o kw
  | CallVeo3 p sd kw => veo_3 self p sd kw
  | CallFluxKontextPro p i sd ar kw => flux_kontext_pro self p i sd ar kw
  | CallLlava13b msgs => llava_13b self msgs
  end.

(** A caller that issues the calls one after the other, keeping every
    outcome (an exception of one call does not stop the next). *)
Fixpoint run_calls (self : SegmindAPI) (cs : list Call) (w : World)
    : list (Outcome PyResult) * World :=
  match cs with
  | [] => ([], w)
  | c :: cs' =>
      let '(o, w1) := run_call self c w in
      let '(os, w2) := run_calls self cs' w1 in
      (o :: os, w2)
  end.

End Client.

(** ** [segmind_utils.py] *)
Section Utils.

Context `{PIL : ImageCodec}.

Definition image_to_base64 (image : Image) (format : string) : Outcome string :=
  match Image_save image format with
  | None => Raise (mkExn ImageSaveError "cannot write image")
  | Some buffered =>
      let img_str := Base64.b64encode buffered in
      Return ("data:image/" +:+ lower format +:+ ";base64," +:+ img_str)
  end.

Definition base64_to_image (base64_str : string) : Outcome Image :=
  let base64_str :=
    if str_in "," base64_str then
      match after_first_comma base64_str with
      | Some tail => tail
      | None => base64_str
      end
    else base64_str in
  match Base64.b64decode base64_str with
  | Raise e => Raise e
  | Return img_data =>
      match Image_open img_data with
      | Some img => Return img
      | None => Raise (mkExn UnidentifiedImageError "cannot identify image file")
      end
  end.

End Utils.

(** ** [examples.py]: [run_with_backoff] *)
Section Backoff.

Context {A : Type}.
Variable func : M A.
Variable max_retries : Z.

(** The body of the [except] clause on the retry path: draw the jitter and
    sleep.  (The progress line printed there has no effect on control.) *)
Definition backoff_pause (delay : Q) : M unit :=
  u <- random_uniform ;;
  let jitter := (u * delay)%Q in
  let wait_time := (delay + jitter)%Q in
  sleep wait_time.

(** The [while retries <= max_retries] loop, one unit of [fuel] per test of
    the loop condition. *)
Fixpoint backoff_loop (fuel : nat) (retries : Z) (delay : Q) (w : World)
    : option (Outcome A * World) :=
  match fuel with
  | O => None
  | S fuel' =>
      if retries <=? max_retries then
        match func w with
        | (Return v, w1) => Some (Return v, w1)
        | (Raise e, w1) =>
            let error_message := exn_msg e in
            if str_in "429" error_message && (retries <? max_retries) then
              match backoff_pause delay w1 with
              | (Return _, w2) => backoff_loop fuel' (retries + 1) (delay * 2)%Q w2
              | (Raise e', w2) => Some (Raise e', w2)
              end
            else Some (Raise e, w1)
        end
      else
        Some (Raise (mkExn PlainException
                       ("Failed after " +:+ str_of_int max_retries +:+ " retries")), w)
  end.

(** The loop condition is tested at most [max_retries + 1] times when
    [max_retries] is not negative, once otherwise. *)
Definition run_with_backoff (initial_delay : Q) (w : World)
    : option (Outcome A * World) :=
  backoff_loop (S (Z.to_nat max_retries)) 0 initial_delay w.

End Backoff.

(** ** [segmind_utils.py]: loading a local image *)
Section UtilsLoad.

Context `{PIL : ImageCodec}.

(** [os.path.exists] is looked up in the files of the world; [Image.open] on
    the path reads those bytes. *)
Definition load_image_from_path (path : string) : M Image :=
  fun w =>
    match files w !! path with
    | None =>
        (Raise (mkExn FileNotFoundError ("Image file not found: " +:+ path)), w)
    | Some data =>
        match Image_open data with
        | Some img => (Return img, w)
        | None =>
            (Raise (mkExn UnidentifiedImageError "cannot identify image file"), w)
        end
    end.

End UtilsLoad.

(** ** [segmind_models.py]

    A [generate] method takes its own named parameters and [**kwargs].  The
    keywords that the client method names but [generate] does not
    ([image_base64] for the image models, [base64] for SDXL) arrive inside
    [**kwargs] in Python; here they are an argument of their own, [None] when
    the keyword is not passed, and [kwargs] holds the remaining keywords. *)
Section Models.

Context `{PIL : ImageCodec}.
Variable py_repr : JValue -> string.

(** [save_image] and [save_video] of [segmind_utils.py] create the parent
    directory through [os] and write through Pillow or [open]; the model
    classes are verified for every behaviour of the two. *)
Variable save_image : PyResult -> string -> M string.
Variable save_video : PyResult -> string -> M string.

Record ModelBase : Type := mkModel { api : SegmindAPI }.

(** [ModelBase.__init__]. *)
Definition ModelBase_init (key : option string) (environ : gmap string string)
    : Outcome ModelBase :=
  match __init__ key environ with
  | Return a => Return (mkModel a)
  | Raise e => Raise e
  end.

(** [if save_path: save_image(result, save_path)] followed by
    [return result]. *)
Definition save_and_return (save_path : option string) (result : PyResult)
    : M PyResult :=
  match truthy_val save_path with
  | Some path => _ <- save_image result path ;; ret result
  | None => ret result
  end.

(** [image_to_base64(load_image_from_path(image_path))], with the default
    format. *)
Definition local_image_base64 (image_path : string) : M string :=
  image <- load_image_from_path image_path ;;
  lift (image_to_base64 image "JPEG").

(** The value of a keyword that may be missing from [**kwargs]. *)
Definition kw_value {A} (kw : option (option A)) : option A :=
  match kw with
  | Some v => v
  | None => None
  end.

(** The choice every image model makes between a converted local file and
    the URL; [call] is the client method with its remaining arguments bound.
    A converted image and an [image_base64] keyword collide. *)
Definition with_image_source (image_url image_path : option string)
    (image_base64_kw : option (option string))
    (call : option string -> option string -> M PyResult) : M PyResult :=
  match truthy_val image_path, truthy_val image_url with
  | Some path, None =>
      image_base64 <- local_image_base64 path ;;
      match image_base64_kw with
      | Some _ =>
          raise TypeError "got multiple values for keyword argument 'image_base64'"
      | None => call None (Some image_base64)
      end
  | _, _ => call image_url (kw_value image_base64_kw)
  end.

Definition SDXL_generate (self : ModelBase) (prompt : string)
    (negative_prompt : option string) (steps seed : option Z)
    (aspect_ratio save_path : option string) (base64_kw : option bool)
    (kwargs : gmap string JValue) : M PyResult :=
  image <- sdxl py_repr (api self) prompt negative_prompt steps seed aspect_ratio
             (match base64_kw with Some b => b | None => false end) kwargs ;;
  save_and_return save_path image.

Definition SDOutpainting_generate (self : ModelBase)
    (prompt image_url image_path save_path : option string)
    (image_base64_kw : option (option string))
    (kwargs : gmap string JValue) : M PyResult :=
  result <- with_image_source image_url image_path image_base64_kw
              (fun u b => sd_outpainting py_repr (api self) u None b prompt kwargs) ;;
  save_and_return save_path result.

Definition QRGenerator_generate (self : ModelBase) (prompt qr_text : string)
    (save_path : option string) (kwargs : gmap string JValue) : M PyResult :=
  result <- qr_generator py_repr (api self) prompt qr_text kwargs ;;
  save_and_return save_path result.

Definition Word2Img_generate (self : ModelBase) (prompt : string)
    (image_url image_path save_path : option string)
    (image_base64_kw : option (option string))
    (kwargs : gmap string JValue) : M PyResult :=
  result <- with_image_source image_url image_path image_base64_kw
              (fun u b => word2img py_repr (api self) u None b (Some prompt) kwargs) ;;
  save_and_return save_path result.

Definition BackgroundRemoval_generate (self : ModelBase)
    (image_url image_path save_path : option string)
    (image_base64_kw : option (option string))
    (kwargs : gmap string JValue) : M PyResult :=
  result <- with_image_source image_url image_path image_base64_kw
              (fun u b => background_removal py_repr (api self) u None b kwargs) ;;
  save_and_return save_path result.

Definition Codeformer_generate (self : ModelBase)
    (image_url image_path save_path : option string)
    (image_base64_kw : option (option string))
    (kwargs : gmap string JValue) : M PyResult :=
  result <- with_image_source image_url image_path image_base64_kw
              (fun u b => codeformer py_repr (api self) u None b kwargs) ;;
  save_and_return save_path result.

Definition SAM_generate (self : ModelBase)
    (image_url image_path save_path : option string)
    (image_base64_kw : option (option string))
    (kwargs : gmap string JValue) : M PyResult :=
  result <- with_image_source image_url image_path image_base64_kw
              (fun u b => sam py_repr (api self) u None b kwargs) ;;
  save_and_return save_path result.

Definition FaceSwap_generate (self : ModelBase)
    (image_url image_path mask_url save_path : option string)
    (image_base64_kw : option (option string))
    (kwargs : gmap string JValue) : M PyResult :=
  result <- with_image_source image_url image_path image_base64_kw
              (fun u b => face_swap py_repr (api self) u None b mask_url kwargs) ;;
  save_and_return save_path result.

Definition ControlNet_generate (self : ModelBase) (prompt : string)
    (image_url image_path : option string) (option : string)
    (save_path : Datatypes.option string)
    (image_base64_kw : Datatypes.option (Datatypes.option string))
    (kwargs : gmap string JValue) : M PyResult :=
  result <- with_image_source image_url image_path image_base64_kw
              (fun u b => controlnet py_repr (api self) prompt u None b option kwargs) ;;
  save_and_return save_path result.

(** With a [save_path] the video model returns the path that [save_video]
    returns, otherwise the bytes. *)
Definition Veo3_generate (self : ModelBase) (prompt : string) (seed : option Z)
    (save_path : option string) (kwargs : gmap string JValue)
    : M (PyResult + string) :=
  video_data <- veo_3 py_repr (api self) prompt seed kwargs ;;
  match truthy_val save_path with
  | Some path => saved <- save_video video_data path ;; ret (inr saved)
  | None => ret (inl video_data)
  end.

Definition FluxKontextPro_generate (self : ModelBase) (prompt : string)
    (input_image : option string) (seed : Z) (aspect_ratio : string)
    (save_path : option string) (kwargs : gmap string JValue) : M PyResult :=
  result <- flux_kontext_pro py_repr (api self) prompt input_image seed
              aspect_ratio kwargs ;;
  save_and_return save_path result.

Definition LLaVA13B_generate (self : ModelBase) (messages : JValue) : M PyResult :=
  llava_13b py_repr (api self) messages.

(** The seven image models, as data. *)
Inductive ImageModel : Type :=
| ModelSDOutpainting (prompt : option string)
| ModelWord2Img (prompt : string)
| ModelBackgroundRemoval
| ModelCodeformer
| ModelSAM
| ModelFaceSwap (mask_url : option string)
| ModelControlNet (prompt option : string).

Definition generate_image (m : ImageModel) (self : ModelBase)
    (image_url image_path save_path : option string)
    (image_base64_kw : option (option string))
    (kwargs : gmap string JValue) : M PyResult :=
  match m with
  | ModelSDOutpainting prompt =>
      SDOutpainting_generate self prompt image_url image_path save_path
        image_base64_kw kwargs
  | ModelWord2Img prompt =>
      Word2Img_generate self prompt image_url image_path save_path
        image_base64_kw kwargs
  | ModelBackgroundRemoval =>
      BackgroundRemoval_generate self image_url image_path save_path
        image_base64_kw kwargs
  | ModelCodeformer =>
      Codeformer_generate self image_url image_path save_path image_base64_kw kwargs
  | ModelSAM =>
      SAM_generate self image_url image_path save_path image_base64_kw kwargs
  | ModelFaceSwap mask_url =>
      FaceSwap_generate self image_url image_path mask_url save_path
        image_base64_kw kwargs
  | ModelControlNet prompt option =>
      ControlNet_generate self prompt image_url image_path option save_path
        image_base64_kw kwargs
  end.

End Models.

(** ** Notions used to state the properties *)

(** [m] only ever appends requests that carry the headers of [self]. *)
Definition stamped {A} (self : SegmindAPI) (m : M A) : Prop :=
  forall w, exists new,
    sent (m w).2 = sent w ++ new /\
    Forall (fun rq => req_headers rq = api_headers self) new.

(** The endpoint name each call of the client addresses. *)
Definition endpoint_of (c : Call) : string :=
  match c with
  | CallTextToImage model_name _ => model_name
  | CallImageToImage model_name _ _ _ _ => model_name
  | CallSdxl _ _ _ _ _ _ _ => "sdxl1.0-txt2img"
  | CallSdOutpainting _ _ _ _ _ => "sd-outpainting"
  | CallQrGenerator _ _ _ => "qr-code-generator"
  | CallWord2img _ _ _ _ _ => "word2img"
  | CallBackgroundRemoval _ _ _ _ => "background-removal"
  | CallCodeformer _ _ _ _ => "codeformer"
  | CallSam _ _ _ _ => "sam"
  | CallFaceSwap _ _ _ _ _ => "face-swap"
  | CallControlnet _ _ _ _ _ _ => "controlnet"
  | CallVeo3 _ _ _ => "veo-3"
  | CallFluxKontextPro _ _ _ _ _ => "flux-kontext-pro"
  | CallLlava13b _ => "llava-13b"
  end.

(** The three image source arguments of a call that carries an image. *)
Definition image_sources (c : Call) : option (list (option string)) :=
  match c with
  | CallImageToImage _ u p b _ => Some [u; p; b]
  | CallSdOutpainting u p b _ _ => Some [u; p; b]
  | CallWord2img u p b _ _ => Some [u; p; b]
  | CallBackgroundRemoval u p b _ => Some [u; p; b]
  | CallCodeformer u p b _ => Some [u; p; b]
  | CallSam u p b _ => Some [u; p; b]
  | CallFaceSwap u p b _ _ => Some [u; p; b]
  | CallControlnet _ u p b _ _ => Some [u; p; b]
  | _ => None
  end.

(** The extra keyword arguments of a call. *)
Definition kwargs_of (c : Call) : gmap string JValue :=
  match c with
  | CallTextToImage _ params => params
  | CallImageToImage _ _ _ _ params => params
  | CallSdxl _ _ _ _ _ _ kwargs => kwargs
  | CallSdOutpainting _ _ _ _ kwargs => kwargs
  | CallQrGenerator _ _ kwargs => kwargs
  | CallWord2img _ _ _ _ kwargs => kwargs
  | CallBackgroundRemoval _ _ _ kwargs => kwargs
  | CallCodeformer _ _ _ kwargs => kwargs
  | CallSam _ _ _ kwargs => kwargs
  | CallFaceSwap _ _ _ _ kwargs => kwargs
  | CallControlnet _ _ _ _ _ kwargs => kwargs
  | CallVeo3 _ _ kwargs => kwargs
  | CallFluxKontextPro _ _ _ _ kwargs => kwargs
  | CallLlava13b _ => ∅
  end.

(** Whether the call hands its keyword arguments on as [**params] to
    [text_to_image] or [image_to_image], whose first parameter is
    [model_name]. *)
Definition forwards_kwargs (c : Call) : bool :=
  match c with
  | CallSdxl _ _ _ _ _ _ _ => true
  | CallSdOutpainting _ _ _ _ _ => true
  | CallQrGenerator _ _ _ => true
  | CallWord2img _ _ _ _ _ => true
  | CallBackgroundRemoval _ _ _ _ => true
  | CallCodeformer _ _ _ _ => true
  | CallSam _ _ _ _ => true
  | CallFaceSwap _ _ _ _ _ => true
  | CallControlnet _ _ _ _ _ _ => true
  | _ => false
  end.

(** The image sources let [image_to_image] get as far as its post: exactly
    one of them is not [None], and the first truthy one among URL, path and
    inline data is usable (a path has to name a file that can be read). *)
Definition image_source_ready (u p b : option string) (w : World) : bool :=
  (count_not_None [u; p; b] =? 1) &&
  match truthy_val u with
  | Some _ => true
  | None =>
      match truthy_val p with
      | Some path => is_not_None (files w !! path)
      | None => is_not_None (truthy_val b)
      end
  end.

(** The call gets as far as its post: no [model_name] keyword collides on
    the way, and the image sources, when the call has any, are ready. *)
Definition reaches_network (c : Call) (w : World) : bool :=
  negb (forwards_kwargs c && is_not_None (kwargs_of c !! "model_name")) &&
  match image_sources c with
  | Some [u; p; b] => image_source_ready u p b w
  | Some _ => false
  | None => true
  end.

(** The client call an image model ends in, for the image source it chose. *)
Definition model_call (m : ImageModel) (image_url image_base64 : option string)
    (kwargs : gmap string JValue) : Call :=
  match m with
  | ModelSDOutpainting prompt =>
      CallSdOutpainting image_url None image_base64 prompt kwargs
  | ModelWord2Img prompt =>
      CallWord2img image_url None image_base64 (Some prompt) kwargs
  | ModelBackgroundRemoval =>
      CallBackgroundRemoval image_url None image_base64 kwargs
  | ModelCodeformer => CallCodeformer image_url None image_base64 kwargs
  | ModelSAM => CallSam image_url None image_base64 kwargs
  | ModelFaceSwap mask_url =>
      CallFaceSwap image_url None image_base64 mask_url kwargs
  | ModelControlNet prompt option =>
      CallControlnet prompt image_url None image_base64 option kwargs
  end.

(** [m] leaves files, sleeps and random draws alone and either touches
    nothing at all or posts one request to [url] with the headers of [self],
    consuming one scripted reply. *)
Definition one_exchange {A} (self : SegmindAPI) (url : string) (m : M A) : Prop :=
  forall w,
    files (m w).2 = files w /\
    slept (m w).2 = slept w /\
    drawn (m w).2 = drawn w /\
    ((sent (m w).2 = sent w /\ network (m w).2 = network w) \/
     exists body,
       sent (m w).2 = sent w ++ [mkRequest url body (api_headers self)] /\
       network (m w).2 = tail (network w)).

(** What [Image.open] makes of a byte string, as an outcome. *)
Definition opened `{PIL : ImageCodec} (buf : bytes) : Outcome Image :=
  match Image_open buf with
  | Some img => Return img
  | None => Raise (mkExn UnidentifiedImageError "cannot identify image file")
  end.

(** Pillow's PNG codec loses nothing: what [save] writes, [open] reads back
    with the same pixels. *)
Definition png_lossless `{PIL : ImageCodec} : Prop :=
  forall (img : Image) (buf : bytes),
    Image_save img "PNG" = Some buf ->
    exists img', Image_open buf = Some img' /\ pixels img' = pixels img.

(** A reply the server gives when it limits the rate: status 429 with a body
    that is not JSON or is a JSON object. *)
Definition rate_limited (r : Response) : Prop :=
  status_code r = 429 /\ (json r = None \/ exists m, json r = Some (JObj m)).

(** [initial_delay * 2^n]. *)
Definition base_delay (initial_delay : Q) (n : nat) : Q :=
  (initial_delay * inject_Z (2 ^ Z.of_nat n))%Q.

(** The sleeps of [n] consecutive retries that start from the base delay
    [delay] and the [k]-th random draw. *)
Fixpoint waits (u : nat -> Q) (delay : Q) (k n : nat) : list Q :=
  match n with
  | O => []
  | S n' => (delay + u k * delay)%Q :: waits u (delay * 2)%Q (S k) n'
  end.

(** [delay] doubled [n] times, as the loop computes it. *)
Fixpoint doubled (delay : Q) (n : nat) : Q :=
  match n with
  | O => delay
  | S n' => doubled (delay * 2)%Q n'
  end.

(** The world after [n] rounds of "post, be refused, pause". *)
Definition after_retries (w : World) (rest : list Response) (rq : Request)
    (delay : Q) (n : nat) : World :=
  mkWorld rest (sent w ++ repeat rq n) (files w) (uniform w) (drawn w + n)%nat
    (slept w ++ waits (uniform w) delay (drawn w) n).

(** Sum of a list of durations. *)
Definition total (l : list Q) : Q := fold_right Qplus 0%Q l.

(** ** Sample values used to run the model *)
Module Samples.

Definition no_repr : JValue -> string := fun _ => "".

Definition api : SegmindAPI :=
  mkAPI "sk-test"
    (<["x-api-key" := "sk-test"]> (<["Content-Type" := "application/json"]> ∅)).

(** A world with the given scripted replies and files, draws all equal to
    [u], and nothing sent or slept yet. *)
Definition world (replies : list Response) (fs : gmap string bytes) (u : Q) : World :=
  mkWorld replies [] fs (fun _ => u) O [].

Definition ok_json : Response :=
  mkResponse 200 (<["Content-Type" := "application/json"]> ∅) []
    (Some (JObj (<["foo" := JStr "bar"]> ∅))).

Definition ok_image : Response :=
  mkResponse 200 (<["Content-Type" := "image/jpeg"]> ∅)
    [Byte.xff; Byte.xd8; Byte.xff] None.

Definition unauthorized : Response :=
  mkResponse 401 ∅ [] (Some (JObj (<["error" := JStr "Invalid API key"]> ∅))).

Definition too_many : Response :=
  mkResponse 429 ∅ [] (Some (JObj (<["error" := JStr "Rate limit exceeded"]> ∅))).


(** A server fault whose detail text happens to contain the digits 429. *)
Definition server_fault : Response :=
  mkResponse 500 ∅ []
    (Some (JObj (<["error" := JStr "upstream job 4290 crashed"]> ∅))).

End Samples.

(** * Properties *)

(** ** Strings *)

#[local] Arguments String.append !_ _ / : simpl nomatch.

Lemma append_assoc (a b c : string) : (a +:+ b) +:+ c = a +:+ b +:+ c.
Proof. induction a as [|x a IH]; simpl; [reflexivity|by rewrite IH]. Qed.

Lemma startswith_nil (s : string) : startswith s "" = true.
Proof. by destruct s. Qed.

Lemma startswith_app (p t : string) : startswith (p +:+ t) p = true.
Proof.
  induction p as [|c p IH]; simpl.
  - by destruct t.
  - by rewrite Ascii.eqb_refl.
Qed.

Lemma startswith_split (s p : string) :
  startswith s p = true -> exists t, s = p +:+ t.
Proof.
  revert s. induction p as [|c p IH]; intros s H.
  - by exists s.
  - destruct s as [|d s]; simpl in H; [discriminate|].
    apply andb_true_iff in H as [Hc H].
    apply Ascii.eqb_eq in Hc as ->.
    destruct (IH _ H) as [t ->]. by exists t.
Qed.

Lemma str_in_here (sub s : string) :
  startswith s sub = true -> str_in sub s = true.
Proof. intros H. destruct s; cbn [str_in]; by rewrite H. Qed.

Lemma str_in_intro (a sub b : string) : str_in sub (a +:+ sub +:+ b) = true.
Proof.
  induction a as [|c a IH].
  - apply str_in_here. change (startswith (sub +:+ b) sub = true). apply startswith_app.
  - change (str_in sub (String c (a +:+ sub +:+ b)) = true).
    simpl. rewrite IH. apply orb_true_r.
Qed.

Lemma str_in_split (sub s : string) :
  str_in sub s = true -> exists a b, s = a +:+ sub +:+ b.
Proof.
  induction s as [|c s IH]; cbn [str_in]; intros H.
  - rewrite orb_false_r in H. destruct (startswith_split _ _ H) as [t Ht].
    by exists EmptyString, t.
  - apply orb_true_iff in H as [H|H].
    + destruct (startswith_split _ _ H) as [t Ht]. by exists EmptyString, t.
    + destruct (IH H) as (a & b & ->). by exists (String c a), b.
Qed.

Lemma str_in_app_l (sub s t : string) :
  str_in sub s = true -> str_in sub (s +:+ t) = true.
Proof.
  intros H. destruct (str_in_split _ _ H) as (a & b & ->).
  replace ((a +:+ sub +:+ b) +:+ t) with (a +:+ sub +:+ (b +:+ t)).
  - apply str_in_intro.
  - by rewrite !append_assoc.
Qed.

Lemma str_in_app_r (sub s t : string) :
  str_in sub t = true -> str_in sub (s +:+ t) = true.
Proof.
  intros H. destruct (str_in_split _ _ H) as (a & b & ->).
  replace (s +:+ a +:+ sub +:+ b) with ((s +:+ a) +:+ sub +:+ b).
  - apply str_in_intro.
  - by rewrite !append_assoc.
Qed.

(** ** The client

    The specification's error names are read as the exceptions the source
    raises: a validation or configuration error is [ValueError], an HTTP
    error is the plain [Exception] raised by [_handle_response] with its
    message. *)
Section ClientFacts.

Context `{PIL : ImageCodec}.
Variable py_repr : JValue -> string.

(** *** Requests carry the client's headers *)

Lemma stamped_pure {A} self (o : Outcome A) : stamped self (lift o).
Proof. intros w. exists []. by rewrite app_nil_r. Qed.

Lemma stamped_ret {A} self (a : A) : stamped self (ret a).
Proof. apply (stamped_pure self (Return a)). Qed.

Lemma stamped_raise {A} self c msg : stamped self (@raise A c msg).
Proof. apply (stamped_pure self (Raise (mkExn c msg))). Qed.

Lemma stamped_read_file self path : stamped self (read_file path).
Proof.
  intros w. exists []. rewrite app_nil_r. unfold read_file.
  by destruct (files w !! path).
Qed.

Lemma stamped_post self url body : stamped self (post url body (api_headers self)).
Proof.
  intros w. exists [mkRequest url body (api_headers self)]. split.
  - unfold post. by destruct (network w).
  - by constructor.
Qed.

Lemma stamped_bind {A B} self (m : M A) (k : A -> M B) :
  stamped self m -> (forall a, stamped self (k a)) -> stamped self (bind m k).
Proof.
  intros Hm Hk w. unfold bind.
  destruct (Hm w) as (n1 & E1 & F1).
  destruct (m w) as [[a|e] w1]; simpl in E1.
  - destruct (Hk a w1) as (n2 & E2 & F2).
    exists (n1 ++ n2). split.
    + by rewrite E2, E1, app_assoc.
    + by apply Forall_app.
  - by exists n1.
Qed.

Lemma stamped_forward {A} self params (m : M A) :
  stamped self m -> stamped self (forward params m).
Proof.
  intros Hm. unfold forward.
  destruct (is_not_None (params !! "model_name")); [apply stamped_raise|done].
Qed.

Lemma stamped_text_to_image self model_name params :
  stamped self (text_to_image py_repr self model_name params).
Proof.
  apply stamped_bind; [apply stamped_post|intros; apply stamped_pure].
Qed.

Lemma stamped_image_to_image self model_name u p b params :
  stamped self (image_to_image py_repr self model_name u p b params).
Proof.
  unfold image_to_image.
  destruct (negb _); [apply stamped_raise|].
  destruct (truthy_val u).
  { apply stamped_bind; [apply stamped_post|intros; apply stamped_pure]. }
  destruct (truthy_val p).
  { apply stamped_bind; [apply stamped_read_file|intros].
    apply stamped_bind; [apply stamped_post|intros; apply stamped_pure]. }
  destruct (truthy_val b); [|apply stamped_raise].
  apply stamped_bind; [apply stamped_post|intros; apply stamped_pure].
Qed.

Lemma stamped_run_call self c : stamped self (run_call py_repr self c).
Proof.
  destruct c; simpl;
    try (apply stamped_forward);
    try (apply stamped_text_to_image);
    try (apply stamped_image_to_image).
  (* what is left is [veo_3], which classifies the reply itself *)
  apply stamped_bind; [apply stamped_post|intros r].
  destruct (status_code r =? 200); [apply stamped_ret|].
  destruct (failure_message py_repr r); [apply stamped_raise|apply stamped_pure].
Qed.

Lemma stamped_run_calls self cs w :
  exists new,
    sent (run_calls py_repr self cs w).2 = sent w ++ new /\
    Forall (fun rq => req_headers rq = api_headers self) new.
Proof.
  revert w. induction cs as [|c cs IH]; intros w; simpl.
  - exists []. by rewrite app_nil_r.
  - destruct (stamped_run_call self c w) as (n1 & E1 & F1).
    destruct (run_call py_repr self c w) as [o w1]; simpl in E1.
    destruct (IH w1) as (n2 & E2 & F2).
    destruct (run_calls py_repr self cs w1) as [os w2]; simpl in *.
    exists (n1 ++ n2). split.
    + by rewrite E2, E1, app_assoc.
    + by apply Forall_app.
Qed.

(** *** Input validation of [image_to_image] *)

Lemma image_to_image_count_check
    self model_name image_url image_path image_base64 params w :
  count_not_None [image_url; image_path; image_base64] <> 1 ->
  exists msg,
    image_to_image py_repr self model_name image_url image_path image_base64 params w
    = (Raise (mkExn ValueError msg), w).
Proof.
  intros Hn. unfold image_to_image.
  destruct (Z.eqb_spec (count_not_None [image_url; image_path; image_base64]) 1)
    as [E|_]; [contradiction|].
  simpl. by eexists.
Qed.

(** The count is the number of arguments that are not [None]. *)
Lemma count_not_None_range (xs : list (option string)) :
  0 <= count_not_None xs <= Z.of_nat (length xs).
Proof.
  induction xs as [|x xs IH]; simpl; [lia|].
  destruct (is_not_None x); lia.
Qed.

(** C1. When the number of image arguments that are not [None] is zero, two
    or three, [image_to_image] raises [ValueError] and leaves the world as it
    found it: nothing is posted and no scripted reply is consumed. *)
Theorem image_to_image_rejects_source_count
    self model_name image_url image_path image_base64 params w :
  count_not_None [image_url; image_path; image_base64] = 0 \/
  2 <= count_not_None [image_url; image_path; image_base64] ->
  exists msg,
    image_to_image py_repr self model_name image_url image_path image_base64 params w
    = (Raise (mkExn ValueError msg), w).
Proof.
  intros Hn. unfold image_to_image.
  destruct (Z.eqb_spec (count_not_None [image_url; image_path; image_base64]) 1)
    as [E|_]; [lia|].
  (* the guard fires before the URL is even built *)
  simpl. by eexists.
Qed.

(** C10. When exactly one image argument is present and every argument is
    falsy (the present one is the empty string), the count check passes, no
    branch assigns [response], and the call ends in [UnboundLocalError], not
    in the [ValueError] of the validation; nothing is posted. *)
Theorem image_to_image_empty_source_unbound
    self model_name image_url image_path image_base64 params w :
  count_not_None [image_url; image_path; image_base64] = 1 ->
  truthy_val image_url = None ->
  truthy_val image_path = None ->
  truthy_val image_base64 = None ->
  exists msg,
    image_to_image py_repr self model_name image_url image_path image_base64 params w
    = (Raise (mkExn UnboundLocalError msg), w) /\
    sent (image_to_image py_repr self model_name image_url image_path image_base64
            params w).2 = sent w.
Proof.
  intros Hn Hu Hp Hb. unfold image_to_image.
  rewrite Hn, Hu, Hp, Hb. simpl. eexists. split; reflexivity.
Qed.

(** The three ways of meeting the hypotheses of C10 with string arguments. *)
Lemma one_empty_source_cases (image_url image_path image_base64 : option string) :
  (count_not_None [image_url; image_path; image_base64] = 1 /\
   truthy_val image_url = None /\ truthy_val image_path = None /\
   truthy_val image_base64 = None)
  <-> (image_url, image_path, image_base64) = (Some "", None, None) \/
      (image_url, image_path, image_base64) = (None, Some "", None) \/
      (image_url, image_path, image_base64) = (None, None, Some "").
Proof.
  assert (Hf : forall o : option string,
             truthy_val o = None -> o = None \/ o = Some "").
  { intros [x|]; simpl; [|by left].
    destruct (String.eqb_spec x ""); [subst; by right|discriminate]. }
  split.
  - intros (Hn & Hu & Hp & Hb).
    destruct (Hf _ Hu) as [->| ->], (Hf _ Hp) as [->| ->], (Hf _ Hb) as [->| ->];
      simpl in Hn; try discriminate; auto.
  - intros [E|[E|E]]; injection E as -> -> ->; repeat split.
Qed.

(** *** Response handling *)

Lemma handle_response_image r :
  status_code r = 200 ->
  startswith (header_get (headers r) "Content-Type" "") "image/" = true ->
  _handle_response py_repr r =
    match Image_open (content r) with
    | Some img => Return (RImage img)
    | None => Raise (mkExn UnidentifiedImageError "cannot identify image file")
    end.
Proof. intros Hs Hc. unfold _handle_response. by rewrite Hs, Hc. Qed.

Lemma handle_response_other r :
  status_code r = 200 ->
  startswith (header_get (headers r) "Content-Type" "") "image/" = false ->
  _handle_response py_repr r =
    match json r with
    | Some v => Return (RJson v)
    | None => Return (RBytes (content r))
    end.
Proof. intros Hs Hc. unfold _handle_response. by rewrite Hs, Hc. Qed.

Lemma handle_response_failure r :
  status_code r <> 200 ->
  _handle_response py_repr r =
    match failure_message py_repr r with
    | Return error_message => Raise (mkExn PlainException error_message)
    | Raise e => Raise e
    end.
Proof.
  intros Hs. unfold _handle_response.
  by destruct (Z.eqb_spec (status_code r) 200).
Qed.

Lemma failure_message_no_json r :
  json r = None ->
  failure_message py_repr r =
    Return ("API request failed with status code " +:+ str_of_int (status_code r)).
Proof. intros Hj. unfold failure_message. by rewrite Hj. Qed.

Lemma failure_message_object r m :
  json r = Some (JObj m) ->
  failure_message py_repr r =
    Return match m !! "error" with
           | Some v =>
               "API request failed with status code " +:+ str_of_int (status_code r)
               +:+ ": " +:+ py_str py_repr v
           | None =>
               "API request failed with status code " +:+ str_of_int (status_code r)
           end.
Proof.
  intros Hj. unfold failure_message. rewrite Hj. simpl.
  by destruct (m !! "error").
Qed.

(** C3. Status 200 with [Content-Type: image/jpeg] yields the image decoded
    from the body; status 200 with a content type that is absent or not an
    image type and the JSON body [{"foo": "bar"}] yields that mapping; status
    401 with the JSON body [{"error": "Invalid API key"}] raises [Exception]
    with a message that contains both [401] and [Invalid API key]. *)
Theorem handle_response_classifies_examples :
  (forall r img,
     status_code r = 200 ->
     headers r !! "Content-Type" = Some "image/jpeg" ->
     Image_open (content r) = Some img ->
     _handle_response py_repr r = Return (RImage img)) /\
  (forall r,
     status_code r = 200 ->
     (forall ct, headers r !! "Content-Type" = Some ct ->
                 startswith ct "image/" = false) ->
     json r = Some (JObj {["foo" := JStr "bar"]}) ->
     _handle_response py_repr r = Return (RJson (JObj {["foo" := JStr "bar"]}))) /\
  (forall r,
     status_code r = 401 ->
     json r = Some (JObj {["error" := JStr "Invalid API key"]}) ->
     exists msg,
       _handle_response py_repr r = Raise (mkExn PlainException msg) /\
       msg = "API request failed with status code 401: Invalid API key" /\
       str_in "401" msg = true /\
       str_in "Invalid API key" msg = true).
Proof.
  repeat split.
  - intros r img Hs Hc Hi.
    rewrite handle_response_image; [by rewrite Hi|done|].
    unfold header_get. by rewrite Hc.
  - intros r Hs Hc Hj.
    rewrite handle_response_other; [by rewrite Hj|done|].
    unfold header_get. destruct (headers r !! "Content-Type") as [ct|] eqn:E.
    + by apply Hc.
    + reflexivity.
  - intros r Hs Hj.
    rewrite handle_response_failure by lia.
    rewrite (failure_message_object r _ Hj), Hs, lookup_singleton_eq.
    eexists. split; [reflexivity|]. by vm_compute.
Qed.


(** *** What [image_to_image] and [face_swap] post *)

Lemma image_to_image_posts self model_name u p b params w :
  sent (image_to_image py_repr self model_name u p b params w).2 = sent w \/
  exists v,
    sent (image_to_image py_repr self model_name u p b params w).2 =
    sent w ++ [mkRequest (BASE_URL +:+ model_name) (<["image" := JStr v]> params)
                 (api_headers self)].
Proof.
  unfold image_to_image.
  destruct (negb _); [by left|].
  destruct (truthy_val u) as [x|].
  { right. exists x. unfold bind, post, lift. by destruct (network w). }
  destruct (truthy_val p) as [x|].
  { unfold bind, read_file, post, lift.
    destruct (files w !! x) as [data|]; [|by left].
    right. exists ("data:image/jpeg;base64," +:+ Base64.b64encode data).
    by destruct (network w). }
  destruct (truthy_val b) as [x|]; [|by left].
  right. exists x. unfold bind, post, lift. by destruct (network w).
Qed.

Lemma forward_collision {A} (params : gmap string JValue) (call : M A) w :
  is_Some (params !! "model_name") ->
  forward params call w =
    (Raise (mkExn TypeError "got multiple values for argument 'model_name'"), w).
Proof. intros [v Hv]. unfold forward. by rewrite Hv. Qed.

Lemma forward_clear {A} (params : gmap string JValue) (call : M A) :
  params !! "model_name" = None -> forward params call = call.
Proof. intros Hv. unfold forward. by rewrite Hv. Qed.

Lemma face_swap_params_model_name mask_url (kwargs : gmap string JValue) :
  (kwargs ∪ set_truthy "mask" mask_url ∅) !! "model_name" = kwargs !! "model_name".
Proof.
  destruct (kwargs !! "model_name") as [v|] eqn:E.
  - by apply lookup_union_Some_l.
  - rewrite lookup_union_r by exact E.
    unfold set_truthy. destruct (truthy_val mask_url); [|by rewrite lookup_empty].
    by rewrite lookup_insert_ne, lookup_empty.
Qed.

Lemma face_swap_params_mask mask_url (kwargs : gmap string JValue) x :
  (<["image" := x]> (kwargs ∪ set_truthy "mask" mask_url ∅)) !! "mask" =
    match kwargs !! "mask" with
    | Some v => Some v
    | None => JStr <$> truthy_val mask_url
    end.
Proof.
  rewrite lookup_insert_ne by done.
  destruct (kwargs !! "mask") as [v|] eqn:E.
  - by apply lookup_union_Some_l.
  - rewrite lookup_union_r by exact E.
    unfold set_truthy. destruct (truthy_val mask_url); simpl.
    + apply lookup_insert_eq.
    + apply lookup_empty.
Qed.

Lemma image_to_image_url_posts self model_name u params w :
  u <> "" ->
  sent (image_to_image py_repr self model_name (Some u) None None params w).2 =
    sent w ++ [mkRequest (BASE_URL +:+ model_name) (<["image" := JStr u]> params)
                 (api_headers self)].
Proof.
  intros Hu. unfold image_to_image.
  change (negb (count_not_None [Some u; None; None] =? 1)) with false. cbv beta iota.
  assert (Htu : truthy_val (Some u) = Some u).
  { simpl. by destruct (String.eqb_spec u ""). }
  rewrite Htu. unfold bind, post, lift. by destruct (network w).
Qed.

(** C9, as the code has it.  [face_swap] takes one extra optional argument,
    [mask_url], and there is no local-path or inline variant of it and no
    one-of-three check for the mask.  Whatever the arguments, the call posts
    at most one request; it goes to [face-swap] and its [mask] field is the
    caller's own [mask] keyword when one is passed ([params.update(kwargs)]
    comes after the assignment), otherwise [mask_url] unchanged when it is
    truthy, and is absent otherwise.  Absent a [model_name] keyword, the
    request is posted whenever a non-empty [image_url] is the only primary
    source, whatever the mask is, and a wrong number of primary sources raises
    the [ValueError] of [image_to_image] before anything is posted.  With a
    [model_name] keyword the call raises [TypeError], the keyword colliding
    with the positional argument of [image_to_image], also before anything is
    posted. *)
Theorem face_swap_mask_is_forwarded_url
    self image_url image_path image_base64 mask_url kwargs w :
  let sent_mask :=
    match kwargs !! "mask" with
    | Some v => Some v
    | None => JStr <$> truthy_val mask_url
    end in
  (kwargs !! "model_name" = None ->
   face_swap py_repr self image_url image_path image_base64 mask_url kwargs =
     image_to_image py_repr self "face-swap" image_url image_path image_base64
       (kwargs ∪ set_truthy "mask" mask_url ∅)) /\
  (is_Some (kwargs !! "model_name") ->
   exists msg,
     face_swap py_repr self image_url image_path image_base64 mask_url kwargs w
     = (Raise (mkExn TypeError msg), w)) /\
  (sent (face_swap py_repr self image_url image_path image_base64 mask_url kwargs w).2
     = sent w \/
   exists rq,
     sent (face_swap py_repr self image_url image_path image_base64 mask_url kwargs w).2
       = sent w ++ [rq] /\
     req_url rq = BASE_URL +:+ "face-swap" /\
     req_json rq !! "mask" = sent_mask) /\
  (kwargs !! "model_name" = None ->
   count_not_None [image_url; image_path; image_base64] <> 1 ->
   exists msg,
     face_swap py_repr self image_url image_path image_base64 mask_url kwargs w
     = (Raise (mkExn ValueError msg), w)) /\
  (forall u,
     kwargs !! "model_name" = None ->
     image_url = Some u -> u <> "" -> image_path = None -> image_base64 = None ->
     exists rq,
       sent (face_swap py_repr self image_url image_path image_base64 mask_url kwargs w).2
         = sent w ++ [rq] /\
       req_url rq = BASE_URL +:+ "face-swap" /\
       req_headers rq = api_headers self /\
       req_json rq !! "image" = Some (JStr u) /\
       req_json rq !! "mask" = sent_mask).
Proof.
  intros sent_mask.
  assert (Hfw : kwargs !! "model_name" = None ->
                face_swap py_repr self image_url image_path image_base64 mask_url kwargs =
                image_to_image py_repr self "face-swap" image_url image_path
                  image_base64 (kwargs ∪ set_truthy "mask" mask_url ∅)).
  { intros Hname. unfold face_swap. apply forward_clear.
    by rewrite face_swap_params_model_name. }
  assert (Hty : is_Some (kwargs !! "model_name") ->
                face_swap py_repr self image_url image_path image_base64 mask_url kwargs w
                = (Raise (mkExn TypeError "got multiple values for argument 'model_name'"),
                   w)).
  { intros Hname. unfold face_swap. apply forward_collision.
    by rewrite face_swap_params_model_name. }
  split; [exact Hfw|].
  split; [intros Hname; eexists; by apply Hty|].
  split; [|split].
  - destruct (kwargs !! "model_name") as [v|] eqn:Hname.
    { left. by rewrite Hty. }
    rewrite Hfw by done.
    destruct (image_to_image_posts self "face-swap" image_url image_path image_base64
                (kwargs ∪ set_truthy "mask" mask_url ∅) w) as [E|[v E]]; [by left|].
    right. eexists. split; [exact E|]. split; [reflexivity|].
    apply face_swap_params_mask.
  - intros Hname Hn. rewrite Hfw by done. by apply image_to_image_count_check.
  - intros u Hname -> Hu -> ->. rewrite Hfw by done.
    eexists. split; [by apply image_to_image_url_posts|].
    split; [reflexivity|]. split; [reflexivity|].
    split; [apply lookup_insert_eq|apply face_swap_params_mask].
Qed.

End ClientFacts.

(** ** Base64 round trip *)
Module Base64Facts.
Import Base64.

Lemma all_sextets_ok : forallb sextet_ok (map N.of_nat (seq 0 64)) = true.
Proof. by vm_compute. Qed.

Lemma sextet_ok_lt (n : N) : (n < 64)%N -> sextet_ok n = true.
Proof.
  intros Hn. pose proof all_sextets_ok as H.
  rewrite forallb_forall in H. apply H.
  rewrite <- (N2Nat.id n). apply in_map, in_seq. lia.
Qed.

Lemma sextet_facts (n : N) :
  (n < 64)%N ->
  value_of (char_of n) = Some n /\
  Ascii.eqb (char_of n) pad = false /\
  Ascii.eqb (char_of n) "," = false /\
  (N_of_ascii (char_of n) <? 128)%N = true.
Proof.
  intros Hn. pose proof (sextet_ok_lt n Hn) as H. unfold sextet_ok in H.
  repeat (apply andb_true_iff in H as [H ?]).
  destruct (value_of (char_of n)) as [m|]; [|discriminate].
  apply N.eqb_eq in H as ->.
  repeat split; try done; by apply negb_true_iff.
Qed.

(** One alphabet character moves the decoder one sextet forward. *)
Lemma a2b_loop_sextet (n : N) (s : string) (quad_pos : nat) (leftchar pads : N) out :
  (n < 64)%N ->
  a2b_loop (String (char_of n) s) quad_pos leftchar pads out =
    match quad_pos with
    | O => a2b_loop s 1%nat n 0%N out
    | 1%nat =>
        a2b_loop s 2%nat (n mod 16)%N 0%N (out ++ [byte_of (leftchar * 4 + n / 16)%N])
    | 2%nat =>
        a2b_loop s 3%nat (n mod 4)%N 0%N (out ++ [byte_of (leftchar * 16 + n / 4)%N])
    | _ => a2b_loop s O 0%N 0%N (out ++ [byte_of (leftchar * 64 + n)%N])
    end.
Proof.
  intros Hn. destruct (sextet_facts n Hn) as (Hv & Hp & _).
  cbn [a2b_loop]. by rewrite Hp, Hv.
Qed.

Lemma sextet_arith (A B C : N) :
  (A < 256 -> B < 256 -> C < 256 ->
   A / 4 < 64 /\ A mod 4 * 16 + B / 16 < 64 /\
   B mod 16 * 4 + C / 64 < 64 /\ C mod 64 < 64 /\
   A / 4 * 4 + (A mod 4 * 16 + B / 16) / 16 = A /\
   (A mod 4 * 16 + B / 16) mod 16 * 16 + (B mod 16 * 4 + C / 64) / 4 = B /\
   (B mod 16 * 4 + C / 64) mod 4 * 64 + C mod 64 = C)%N.
Proof.
  intros. repeat split; zify; Z.to_euclidean_division_equations; lia.
Qed.

Lemma byte_of_to_N (b : Byte.byte) : byte_of (Byte.to_N b) = b.
Proof. unfold byte_of. by rewrite Byte.of_to_N. Qed.

Lemma to_N_lt (b : Byte.byte) : (Byte.to_N b < 256)%N.
Proof. pose proof (Byte.to_N_bounded b). lia. Qed.

(** A full group of three bytes is decoded and the decoder is back at a
    group boundary. *)
Lemma a2b_loop_group (a b c : Byte.byte) (rest : bytes) (out : bytes) :
  a2b_loop (b64encode (a :: b :: c :: rest)) O 0%N 0%N out =
  a2b_loop (b64encode rest) O 0%N 0%N (out ++ [a; b; c]).
Proof.
  destruct (sextet_arith (Byte.to_N a) (Byte.to_N b) (Byte.to_N c)
              (to_N_lt a) (to_N_lt b) (to_N_lt c))
    as (H0 & H1 & H2 & H3 & Ea & Eb & Ec).
  cbn [b64encode]. cbv zeta.
  rewrite !a2b_loop_sextet by assumption.
  rewrite Ea, Eb, Ec, !byte_of_to_N.
  by rewrite <- !app_assoc.
Qed.

Lemma a2b_loop_encode (bs : bytes) : forall out,
  a2b_loop (b64encode bs) O 0%N 0%N out = Return (out ++ bs).
Proof.
  assert (Hlen : forall n (l : bytes), (length l <= n)%nat -> forall out,
             a2b_loop (b64encode l) O 0%N 0%N out = Return (out ++ l)).
  { induction n as [|n IH]; intros l Hl out.
    { destruct l; [|simpl in Hl; lia]. simpl. by rewrite app_nil_r. }
    destruct l as [|a [|b [|c rest]]].
    - simpl. by rewrite app_nil_r.
    - (* one byte, two pad characters *)
      destruct (sextet_arith (Byte.to_N a) 0 0 (to_N_lt a) eq_refl eq_refl)
        as (H0 & H1 & _ & _ & Ea & _).
      cbn [b64encode]. cbv zeta.
      rewrite N.add_0_r in H1, Ea.
      rewrite !a2b_loop_sextet by assumption.
      rewrite Ea, byte_of_to_N. reflexivity.
    - (* two bytes, one pad character *)
      destruct (sextet_arith (Byte.to_N a) (Byte.to_N b) 0
                  (to_N_lt a) (to_N_lt b) eq_refl)
        as (H0 & H1 & H2 & _ & Ea & Eb & _).
      cbn [b64encode]. cbv zeta.
      rewrite N.add_0_r in H2, Eb.
      rewrite !a2b_loop_sextet by assumption.
      rewrite Ea, Eb, !byte_of_to_N. cbn [a2b_loop].
      by rewrite <- app_assoc.
    - rewrite a2b_loop_group. rewrite IH by (simpl in Hl; lia).
      by rewrite <- app_assoc. }
  intros out. by apply (Hlen (length bs)).
Qed.

Lemma b64encode_is_ascii (bs : bytes) : is_ascii (b64encode bs) = true.
Proof.
  assert (Hc : forall n, (n < 64)%N -> (N_of_ascii (char_of n) <? 128)%N = true)
    by (intros n Hn; apply (sextet_facts n Hn)).
  assert (Hlen : forall n (l : bytes), (length l <= n)%nat ->
             is_ascii (b64encode l) = true).
  { unfold is_ascii. induction n as [|n IH]; intros l Hl.
    { by destruct l; [|simpl in Hl; lia]. }
    destruct l as [|a [|b [|c rest]]]; [done|..].
    - destruct (sextet_arith (Byte.to_N a) 0 0 (to_N_lt a) eq_refl eq_refl)
        as (H0 & H1 & _).
      rewrite N.add_0_r in H1.
      cbn [b64encode list_ascii_of_string forallb]. cbv zeta.
      by rewrite !Hc.
    - destruct (sextet_arith (Byte.to_N a) (Byte.to_N b) 0
                  (to_N_lt a) (to_N_lt b) eq_refl) as (H0 & H1 & H2 & _).
      rewrite N.add_0_r in H2.
      cbn [b64encode list_ascii_of_string forallb]. cbv zeta.
      by rewrite !Hc.
    - destruct (sextet_arith (Byte.to_N a) (Byte.to_N b) (Byte.to_N c)
                  (to_N_lt a) (to_N_lt b) (to_N_lt c)) as (H0 & H1 & H2 & H3 & _).
      cbn [b64encode list_ascii_of_string forallb]. cbv zeta.
      rewrite !Hc by assumption. simpl. apply IH. simpl in Hl. lia. }
  by apply (Hlen (length bs)).
Qed.

(** Decoding an encoding gives the bytes back. *)
Lemma b64decode_b64encode (bs : bytes) : b64decode (b64encode bs) = Return bs.
Proof.
  unfold b64decode. rewrite b64encode_is_ascii. apply a2b_loop_encode.
Qed.

End Base64Facts.

(** ** Inline image data: [image_to_base64] then [base64_to_image] *)
Section UtilsFacts.

Context `{PIL : ImageCodec}.

(** The decoder strips the data-URL header and hands [Image.open] the very
    bytes that [Image.save] produced. *)
Lemma base64_to_image_png_url (buf : bytes) :
  base64_to_image ("data:image/" +:+ lower "PNG" +:+ ";base64," +:+ Base64.b64encode buf)
  = match Image_open buf with
    | Some img => Return img
    | None => Raise (mkExn UnidentifiedImageError "cannot identify image file")
    end.
Proof.
  unfold base64_to_image.
  change (lower "PNG") with "png". simpl.
  rewrite startswith_nil. simpl.
  by rewrite Base64Facts.b64decode_b64encode.
Qed.

(** C8. For the PNG format, whose codec is lossless, encoding an image to
    the inline [data:image/png;base64,...] text and decoding that text gives
    an image with the same pixels. *)
Theorem png_round_trip_pixels (img : Image) (buf : bytes) :
  png_lossless ->
  Image_save img "PNG" = Some buf ->
  exists s img',
    image_to_base64 img "PNG" = Return s /\
    base64_to_image s = Return img' /\
    pixels img' = pixels img.
Proof.
  intros Hpng Hsave.
  destruct (Hpng img buf Hsave) as (img' & Hopen & Hpix).
  exists ("data:image/" +:+ lower "PNG" +:+ ";base64," +:+ Base64.b64encode buf), img'.
  split; [|split; [|exact Hpix]].
  - unfold image_to_base64. by rewrite Hsave.
  - by rewrite base64_to_image_png_url, Hopen.
Qed.

End UtilsFacts.

(** ** The retry wrapper *)
Section BackoffLoop.

Context {A : Type}.
Variable func : M A.
Variable max_retries : Z.

(** The loop always ends within the fuel that [run_with_backoff] gives it. *)
Lemma backoff_loop_total fuel retries delay w :
  (Z.to_nat (max_retries - retries) < fuel)%nat ->
  is_Some (backoff_loop func max_retries fuel retries delay w).
Proof.
  revert retries delay w.
  induction fuel as [|fuel IH]; intros retries delay w Hf; [lia|].
  cbn [backoff_loop].
  destruct (Z.leb_spec retries max_retries); [|by eexists].
  destruct (func w) as [[v|e] w1]; [by eexists|].
  destruct (str_in "429" (exn_msg e) && (retries <? max_retries)) eqn:E;
    [|by eexists].
  apply andb_true_iff in E as [_ E]. apply Z.ltb_lt in E.
  destruct (backoff_pause delay w1) as [[[]|e'] w2]; [|by eexists].
  apply IH. lia.
Qed.

Lemma run_with_backoff_total initial_delay w :
  is_Some (run_with_backoff func max_retries initial_delay w).
Proof. apply backoff_loop_total. lia. Qed.

(** The final [raise Exception("Failed after ...")] is reached only when the
    loop is never entered. *)
Lemma run_with_backoff_negative initial_delay w :
  max_retries < 0 ->
  run_with_backoff func max_retries initial_delay w =
    Some (Raise (mkExn PlainException
                   ("Failed after " +:+ str_of_int max_retries +:+ " retries")), w).
Proof.
  intros Hm. unfold run_with_backoff. cbn [backoff_loop].
  by destruct (Z.leb_spec 0 max_retries); [lia|].
Qed.

Lemma backoff_loop_return fuel retries delay w v w1 :
  retries <= max_retries ->
  func w = (Return v, w1) ->
  backoff_loop func max_retries (S fuel) retries delay w = Some (Return v, w1).
Proof.
  intros Hr Hf. cbn [backoff_loop].
  destruct (Z.leb_spec retries max_retries); [|lia]. by rewrite Hf.
Qed.

(** An error is handed on as it is when its message has no [429] in it, or
    when no retry is left. *)
Lemma backoff_loop_propagate fuel retries delay w e w1 :
  retries <= max_retries ->
  func w = (Raise e, w1) ->
  str_in "429" (exn_msg e) = false \/ retries = max_retries ->
  backoff_loop func max_retries (S fuel) retries delay w = Some (Raise e, w1).
Proof.
  intros Hr Hf Hc. cbn [backoff_loop].
  destruct (Z.leb_spec retries max_retries); [|lia]. rewrite Hf.
  destruct Hc as [-> | ->]; [done|].
  by rewrite Z.ltb_irrefl, andb_false_r.
Qed.

Lemma backoff_pause_run delay w :
  (0 <= delay)%Q ->
  (0 <= uniform w (drawn w))%Q ->
  backoff_pause delay w =
    (Return tt,
     mkWorld (network w) (sent w) (files w) (uniform w) (S (drawn w))
       (slept w ++ [(delay + uniform w (drawn w) * delay)%Q])).
Proof.
  intros Hd Hu. unfold backoff_pause, bind, random_uniform, sleep. simpl.
  assert (H : Qle_bool 0 (delay + uniform w (drawn w) * delay) = true).
  { apply Qle_bool_iff.
    pose proof (Qmult_le_0_compat _ _ Hu Hd). lra. }
  by rewrite H.
Qed.

(** An error whose message mentions [429] is retried after a pause, as long
    as a retry is left. *)
Lemma backoff_loop_retry fuel retries delay w e w1 :
  retries < max_retries ->
  func w = (Raise e, w1) ->
  str_in "429" (exn_msg e) = true ->
  (0 <= delay)%Q ->
  (0 <= uniform w1 (drawn w1))%Q ->
  backoff_loop func max_retries (S fuel) retries delay w =
    backoff_loop func max_retries fuel (retries + 1) (delay * 2)%Q
      (mkWorld (network w1) (sent w1) (files w1) (uniform w1) (S (drawn w1))
         (slept w1 ++ [(delay + uniform w1 (drawn w1) * delay)%Q])).
Proof.
  intros Hr Hf Hm Hd Hu. cbn [backoff_loop].
  destruct (Z.leb_spec retries max_retries); [|lia]. rewrite Hf, Hm.
  destruct (Z.ltb_spec retries max_retries); [|lia]. simpl.
  by rewrite backoff_pause_run.
Qed.

(** With a non-negative retry budget, an error without [429] in its message
    leaves the wrapper at once, with no pause. *)
Lemma run_with_backoff_propagates_other initial_delay w e w1 :
  0 <= max_retries ->
  func w = (Raise e, w1) ->
  str_in "429" (exn_msg e) = false ->
  run_with_backoff func max_retries initial_delay w = Some (Raise e, w1).
Proof.
  intros Hm Hf Hc. unfold run_with_backoff.
  apply backoff_loop_propagate; auto.
Qed.

End BackoffLoop.

(** ** The retry wrapper around a dispatch *)
Section BackoffDispatch.

Context `{PIL : ImageCodec}.
Variable py_repr : JValue -> string.
Variable self : SegmindAPI.
Variable model_name : string.
Variable params : gmap string JValue.

#[local] Abbreviation op := (text_to_image py_repr self model_name params).
#[local] Abbreviation rq :=
  (mkRequest (BASE_URL +:+ model_name) params (api_headers self)).

Lemma text_to_image_run r rest w :
  network w = r :: rest ->
  op w = (_handle_response py_repr r,
          mkWorld rest (sent w ++ [rq]) (files w) (uniform w) (drawn w) (slept w)).
Proof. intros Hn. unfold text_to_image, bind, post, lift. by rewrite Hn. Qed.

(** A rate-limited reply is classified as an [Exception] whose message
    mentions [429]. *)
Lemma rate_limited_raises r :
  rate_limited r ->
  exists msg,
    _handle_response py_repr r = Raise (mkExn PlainException msg) /\
    str_in "429" msg = true.
Proof.
  intros [Hs Hj]. rewrite handle_response_failure by lia.
  assert (Hbase : str_in "429"
            ("API request failed with status code " +:+ str_of_int 429) = true)
    by (by vm_compute).
  destruct Hj as [Hj|[m Hj]].
  - rewrite failure_message_no_json, Hs by done. by eexists.
  - rewrite (failure_message_object py_repr r m Hj), Hs.
    eexists. split; [reflexivity|].
    destruct (m !! "error"); [|exact Hbase].
    rewrite <- append_assoc. by apply str_in_app_l.
Qed.

(** As many rate-limited replies as there are retries left are each followed
    by a pause and a new attempt; the base delay doubles every time. *)
Lemma backoff_loop_refused max_retries rs : forall fuel retries delay w rest,
  network w = rs ++ rest ->
  Forall rate_limited rs ->
  retries + Z.of_nat (length rs) <= max_retries ->
  (0 <= delay)%Q ->
  (forall k, 0 <= uniform w k)%Q ->
  backoff_loop op max_retries (length rs + fuel) retries delay w =
  backoff_loop op max_retries fuel (retries + Z.of_nat (length rs))
    (doubled delay (length rs)) (after_retries w rest rq delay (length rs)).
Proof.
  induction rs as [|r rs IH]; intros fuel retries delay w rest Hn Hrs Hm Hd Hu.
  - simpl. rewrite Z.add_0_r. f_equal.
    destruct w; unfold after_retries; simpl in *.
    by rewrite Hn, !app_nil_r, Nat.add_0_r.
  - inversion Hrs as [|? ? Hr Hrs']; subst.
    destruct (rate_limited_raises r Hr) as (msg & Hh & Hmsg).
    simpl length. change (S (length rs) + fuel)%nat with (S (length rs + fuel)).
    rewrite (backoff_loop_retry op max_retries _ retries delay w (mkExn PlainException msg)
               (mkWorld (rs ++ rest) (sent w ++ [rq]) (files w) (uniform w) (drawn w)
                  (slept w)));
      [|simpl length in Hm; lia|by rewrite <- Hh; apply text_to_image_run|done|done|apply Hu].
    rewrite IH with (rest := rest); simpl;
      [|done|done|simpl length in Hm; lia|lra|apply Hu].
    f_equal.
    + simpl length. lia.
    + unfold after_retries. simpl. f_equal.
      * by rewrite <- app_assoc.
      * lia.
      * by rewrite <- app_assoc.
Qed.

(** Any number of refusals within the retry budget, then a reply that is
    classified as a result: the wrapper returns that result after one pause
    per refusal. *)
Lemma backoff_succeeds_after_refusals max_retries rs r rest res delay w :
  network w = rs ++ r :: rest ->
  Forall rate_limited rs ->
  Z.of_nat (length rs) <= max_retries ->
  _handle_response py_repr r = Return res ->
  (0 <= delay)%Q ->
  (forall k, 0 <= uniform w k)%Q ->
  run_with_backoff op max_retries delay w =
    Some (Return res,
          mkWorld rest (sent w ++ repeat rq (S (length rs))) (files w) (uniform w)
            (drawn w + length rs)
            (slept w ++ waits (uniform w) delay (drawn w) (length rs))).
Proof.
  intros Hn Hrs Hm Hres Hd Hu. unfold run_with_backoff.
  replace (S (Z.to_nat max_retries))
    with (length rs + S (Z.to_nat max_retries - length rs))%nat by lia.
  rewrite (backoff_loop_refused max_retries rs _ 0 delay w (r :: rest))
    by (try done; lia).
  assert (Hsent : (sent w ++ repeat rq (length rs)) ++ [rq]
                  = sent w ++ repeat rq (S (length rs))).
  { rewrite <- app_assoc. f_equal. symmetry. apply repeat_cons. }
  erewrite backoff_loop_return; [|lia|].
  2: { rewrite (text_to_image_run r rest) by done. by rewrite Hres. }
  unfold after_retries. cbn [sent network files uniform drawn slept].
  by rewrite Hsent.
Qed.

(** As many refusals as the retry budget allows: whatever the next attempt
    gives, a result or an exception, is the wrapper's outcome as it stands. *)
Lemma backoff_exhausted_after_budget max_retries rs r rest delay w :
  network w = rs ++ r :: rest ->
  Forall rate_limited rs ->
  Z.of_nat (length rs) = max_retries ->
  (0 <= delay)%Q ->
  (forall k, 0 <= uniform w k)%Q ->
  run_with_backoff op max_retries delay w =
    Some (_handle_response py_repr r,
          mkWorld rest (sent w ++ repeat rq (S (length rs))) (files w) (uniform w)
            (drawn w + length rs)
            (slept w ++ waits (uniform w) delay (drawn w) (length rs))).
Proof.
  intros Hn Hrs Hm Hd Hu. unfold run_with_backoff.
  replace (S (Z.to_nat max_retries)) with (length rs + 1)%nat by lia.
  rewrite (backoff_loop_refused max_retries rs _ 0 delay w (r :: rest))
    by (try done; lia).
  cbn [backoff_loop].
  destruct (Z.leb_spec (0 + Z.of_nat (length rs)) max_retries); [|lia].
  rewrite (text_to_image_run r rest) by done.
  assert (Hlast : (0 + Z.of_nat (length rs) <? max_retries) = false)
    by (apply Z.ltb_ge; lia).
  assert (Hsent : (sent w ++ repeat rq (length rs)) ++ [rq]
                  = sent w ++ repeat rq (S (length rs))).
  { rewrite <- app_assoc. f_equal. symmetry. apply repeat_cons. }
  unfold after_retries. cbn [sent network files uniform drawn slept].
  destruct (_handle_response py_repr r);
    rewrite ?Hlast, ?andb_false_r; by rewrite Hsent.
Qed.

(** A failure whose message has no [429] in it leaves the wrapper after the
    single post that produced it, with no pause. *)
Lemma backoff_propagates_failure_without_429 max_retries r rest e delay w :
  0 <= max_retries ->
  network w = r :: rest ->
  _handle_response py_repr r = Raise e ->
  str_in "429" (exn_msg e) = false ->
  run_with_backoff op max_retries delay w =
    Some (Raise e,
          mkWorld rest (sent w ++ [rq]) (files w) (uniform w) (drawn w) (slept w)).
Proof.
  intros Hm Hn Hh Hc.
  apply run_with_backoff_propagates_other; [done| |done].
  rewrite <- Hh. by apply text_to_image_run.
Qed.

Lemma jitter_bounds (u d : Q) :
  (0 <= d -> 0 <= u <= 1 # 10 -> 0 <= u * d <= (1 # 10) * d)%Q.
Proof.
  intros Hd [Hu0 Hu1]. split.
  - by apply Qmult_le_0_compat.
  - by apply Qmult_le_compat_r.
Qed.

Lemma doubled_base_delay (d : Q) (n : nat) : (doubled d n == base_delay d n)%Q.
Proof.
  revert d. induction n as [|n IH]; intros d; unfold base_delay in *.
  - change (inject_Z (2 ^ Z.of_nat 0)) with 1%Q. cbn [doubled]. ring.
  - cbn [doubled]. rewrite IH.
    rewrite Nat2Z.inj_succ, Z.pow_succ_r, inject_Z_mult by lia. ring.
Qed.

(** The pause before retry number [i] is [initial_delay * 2^i] plus the
    jitter drawn for it. *)
Lemma waits_lookup u (d : Q) (k n i : nat) :
  (i < n)%nat ->
  waits u d k n !! i = Some (doubled d i + u (k + i)%nat * doubled d i)%Q.
Proof.
  revert d k i. induction n as [|n IH]; intros d k i Hi; [lia|].
  destruct i as [|i]; simpl.
  - by rewrite Nat.add_0_r.
  - rewrite IH by lia. by rewrite Nat.add_succ_r.
Qed.

(** C4. Against the replies 429, 429, 200 and with [max_retries = 5] the
    wrapper returns the result of the third attempt: three posts, two draws
    from the random source and two pauses, nothing else.  The pause before
    retry [n] is exactly the base delay [initial_delay * 2^n] plus the jitter
    [u_n * base delay], where [u_n] is the [n]-th number the random source
    hands out during the call; with draws in [0, 0.1] each jitter lies between
    0 and a tenth of its base delay.  The two base delays add up to
    [3 * initial_delay], which the total time slept therefore reaches. *)
Theorem backoff_succeeds_after_two_refusals
    (r1 r2 r3 : Response) (rest : list Response) (res : PyResult)
    (initial_delay : Q) (w : World) :
  network w = r1 :: r2 :: r3 :: rest ->
  rate_limited r1 ->
  rate_limited r2 ->
  status_code r3 = 200 ->
  _handle_response py_repr r3 = Return res ->
  (0 <= initial_delay)%Q ->
  (forall k, 0 <= uniform w k <= 1 # 10)%Q ->
  let u0 := uniform w (drawn w) in
  let u1 := uniform w (drawn w + 1) in
  let d0 := initial_delay in
  let d1 := (initial_delay * 2)%Q in
  let j0 := (u0 * d0)%Q in
  let j1 := (u1 * d1)%Q in
  exists w',
    run_with_backoff op 5 initial_delay w = Some (Return res, w') /\
    network w' = rest /\
    sent w' = sent w ++ [rq; rq; rq] /\
    drawn w' = (drawn w + 2)%nat /\
    slept w' = slept w ++ [(d0 + j0)%Q; (d1 + j1)%Q] /\
    (d0 == base_delay initial_delay 0)%Q /\
    (d1 == base_delay initial_delay 1)%Q /\
    (0 <= j0 <= (1 # 10) * d0)%Q /\
    (0 <= j1 <= (1 # 10) * d1)%Q /\
    (d0 + d1 == 3 * initial_delay)%Q /\
    (3 * initial_delay <= total [(d0 + j0)%Q; (d1 + j1)%Q])%Q.
Proof.
  intros Hn H1 H2 Hs Hres Hd Hu u0 u1 d0 d1 j0 j1.
  assert (Hu0 : (forall k, 0 <= uniform w k)%Q) by (intros k; apply Hu).
  pose proof (jitter_bounds u0 d0 Hd (Hu _)) as Hj0.
  assert (Hd1 : (0 <= d1)%Q) by (unfold d1; lra).
  pose proof (jitter_bounds u1 d1 Hd1 (Hu _)) as Hj1.
  exists (mkWorld rest ((sent w ++ repeat rq 2) ++ [rq]) (files w) (uniform w)
            (drawn w + 2)
            (slept w ++ waits (uniform w) initial_delay (drawn w) 2)).
  split.
  { unfold run_with_backoff.
    change (S (Z.to_nat 5)) with (length [r1; r2] + 4)%nat.
    rewrite (backoff_loop_refused 5 [r1; r2] 4 0 initial_delay w (r3 :: rest));
      [|done|repeat (constructor; [assumption|]); constructor|simpl; lia|done|done].
    simpl length. simpl Z.add.
    erewrite backoff_loop_return; [reflexivity|lia|].
    rewrite (text_to_image_run r3 rest) by done. by rewrite Hres. }
  split; [reflexivity|].
  split.
  { simpl. by rewrite <- app_assoc. }
  split; [reflexivity|].
  split.
  { unfold j0, j1, u0, u1, d0, d1. simpl. by rewrite Nat.add_1_r. }
  split.
  { unfold d0, base_delay. change (inject_Z (2 ^ Z.of_nat 0)) with 1%Q. ring. }
  split.
  { unfold d1, base_delay. change (inject_Z (2 ^ Z.of_nat 1)) with 2%Q. ring. }
  split; [exact Hj0|].
  split; [exact Hj1|].
  split.
  - unfold d0, d1. ring.
  - unfold total. simpl. destruct Hj0 as [Hj0 _], Hj1 as [Hj1 _].
    unfold j0, j1, u0, u1, d0, d1 in *. lra.
Qed.

(** C5. Against three rate-limited replies and with [max_retries = 2] the
    wrapper makes three attempts with two pauses between them and then raises
    the very exception that classifying the third reply raised. *)
Theorem backoff_exhausted_raises_last_error
    (r1 r2 r3 : Response) (rest : list Response) (initial_delay : Q) (w : World) :
  network w = r1 :: r2 :: r3 :: rest ->
  rate_limited r1 ->
  rate_limited r2 ->
  rate_limited r3 ->
  (0 <= initial_delay)%Q ->
  (forall k, 0 <= uniform w k)%Q ->
  exists e w',
    _handle_response py_repr r3 = Raise e /\
    run_with_backoff op 2 initial_delay w = Some (Raise e, w') /\
    sent w' = sent w ++ [rq; rq; rq] /\
    length (slept w') = (length (slept w) + 2)%nat /\
    network w' = rest.
Proof.
  intros Hn H1 H2 H3 Hd Hu.
  destruct (rate_limited_raises r3 H3) as (msg & Hh & _).
  exists (mkExn PlainException msg),
    (mkWorld rest ((sent w ++ repeat rq 2) ++ [rq]) (files w) (uniform w)
       (drawn w + 2)
       (slept w ++ waits (uniform w) initial_delay (drawn w) 2)).
  split; [exact Hh|]. split.
  { unfold run_with_backoff.
    change (S (Z.to_nat 2)) with (length [r1; r2] + 1)%nat.
    rewrite (backoff_loop_refused 2 [r1; r2] 1 0 initial_delay w (r3 :: rest));
      [|done|repeat (constructor; [assumption|]); constructor|simpl; lia|done|done].
    simpl length. simpl Z.add.
    apply backoff_loop_propagate; [lia| |by right].
    rewrite <- Hh. by apply (text_to_image_run r3 rest). }
  split.
  { simpl. by rewrite <- app_assoc. }
  split; [|done].
  simpl. rewrite length_app. simpl. lia.
Qed.

End BackoffDispatch.

(** ** Runs on concrete inputs *)
Section Runs.

Import Samples.

#[local] Abbreviation run_image_to_image := (@image_to_image RawCodec no_repr).
#[local] Abbreviation run_face_swap := (@face_swap RawCodec no_repr).
#[local] Abbreviation run_handle := (@_handle_response RawCodec no_repr).
#[local] Abbreviation run_text_to_image := (@text_to_image RawCodec no_repr).

Lemma image_to_image_rejects_source_count_run :
  (count_not_None [Some "http://host/a.jpg"; None; Some "QUJD"] = 0 \/
   2 <= count_not_None [Some "http://host/a.jpg"; None; Some "QUJD"]) /\
  exists msg,
    run_image_to_image api "sam" (Some "http://host/a.jpg") None (Some "QUJD") ∅
      (world [ok_image] ∅ 0)
    = (Raise (mkExn ValueError msg), world [ok_image] ∅ 0).
Proof.
  assert (H : count_not_None [Some "http://host/a.jpg"; None; Some "QUJD"] = 0 \/
              2 <= count_not_None [Some "http://host/a.jpg"; None; Some "QUJD"])
    by (right; simpl; lia).
  split; [exact H|].
  exact (image_to_image_rejects_source_count no_repr api "sam"
           (Some "http://host/a.jpg") None (Some "QUJD") ∅ (world [ok_image] ∅ 0) H).
Defined.

Lemma image_to_image_empty_source_unbound_run :
  exists msg,
    run_image_to_image api "sam" (Some "") None None ∅ (world [ok_image] ∅ 0)
    = (Raise (mkExn UnboundLocalError msg), world [ok_image] ∅ 0) /\
    sent (run_image_to_image api "sam" (Some "") None None ∅
            (world [ok_image] ∅ 0)).2 = [].
Proof.
  exact (image_to_image_empty_source_unbound no_repr api "sam" (Some "") None None ∅
           (world [ok_image] ∅ 0) eq_refl eq_refl eq_refl eq_refl).
Defined.

Lemma handle_response_classifies_examples_run :
  run_handle ok_image = Return (@RImage RawCodec [Byte.xff; Byte.xd8; Byte.xff]) /\
  run_handle ok_json = Return (RJson (JObj {["foo" := JStr "bar"]})) /\
  exists msg,
    run_handle unauthorized = Raise (mkExn PlainException msg) /\
    msg = "API request failed with status code 401: Invalid API key" /\
    str_in "401" msg = true /\
    str_in "Invalid API key" msg = true.
Proof.
  destruct (@handle_response_classifies_examples RawCodec no_repr) as (Hi & Hj & He).
  split; [|split].
  - apply Hi; reflexivity.
  - apply Hj; [reflexivity| |reflexivity].
    intros ct Hct. vm_compute in Hct. injection Hct as <-. reflexivity.
  - apply He; reflexivity.
Defined.



Lemma face_swap_mask_is_forwarded_url_run :
  (exists rq,
     sent (run_face_swap api (Some "http://host/face.jpg") None None
             (Some "http://host/mask.jpg") ∅ (world [ok_image] ∅ 0)).2 = [] ++ [rq] /\
     req_url rq = BASE_URL +:+ "face-swap" /\
     req_headers rq = api_headers api /\
     req_json rq !! "image" = Some (JStr "http://host/face.jpg") /\
     req_json rq !! "mask" = Some (JStr "http://host/mask.jpg")) /\
  (exists rq,
     sent (run_face_swap api (Some "http://host/face.jpg") None None
             (Some "http://host/mask.jpg") {["mask" := JStr "other"]}
             (world [ok_image] ∅ 0)).2 = [] ++ [rq] /\
     req_url rq = BASE_URL +:+ "face-swap" /\
     req_headers rq = api_headers api /\
     req_json rq !! "image" = Some (JStr "http://host/face.jpg") /\
     req_json rq !! "mask" = Some (JStr "other")) /\
  (exists msg,
     run_face_swap api None None None (Some "http://host/mask.jpg") ∅
       (world [ok_image] ∅ 0)
     = (Raise (mkExn ValueError msg), world [ok_image] ∅ 0)) /\
  (exists msg,
     run_face_swap api (Some "http://host/face.jpg") None None
       (Some "http://host/mask.jpg") {["model_name" := JStr "sam"]}
       (world [ok_image] ∅ 0)
     = (Raise (mkExn TypeError msg), world [ok_image] ∅ 0)).
Proof.
  split; [|split; [|split]].
  - exact (proj2 (proj2 (proj2 (proj2
             (@face_swap_mask_is_forwarded_url RawCodec no_repr api
                (Some "http://host/face.jpg") None None (Some "http://host/mask.jpg") ∅
                (world [ok_image] ∅ 0)))))
             "http://host/face.jpg" eq_refl eq_refl ltac:(discriminate) eq_refl eq_refl).
  - exact (proj2 (proj2 (proj2 (proj2
             (@face_swap_mask_is_forwarded_url RawCodec no_repr api
                (Some "http://host/face.jpg") None None (Some "http://host/mask.jpg")
                {["mask" := JStr "other"]} (world [ok_image] ∅ 0)))))
             "http://host/face.jpg" eq_refl eq_refl ltac:(discriminate) eq_refl eq_refl).
  - exact (proj1 (proj2 (proj2 (proj2
             (@face_swap_mask_is_forwarded_url RawCodec no_repr api
                None None None (Some "http://host/mask.jpg") ∅
                (world [ok_image] ∅ 0)))))
             eq_refl ltac:(discriminate)).
  - exact (proj1 (proj2
             (@face_swap_mask_is_forwarded_url RawCodec no_repr api
                (Some "http://host/face.jpg") None None (Some "http://host/mask.jpg")
                {["model_name" := JStr "sam"]} (world [ok_image] ∅ 0)))
             ltac:(by exists (JStr "sam"))).
Defined.

(** C9 as stated fails.  A local path given as the primary image is read and
    sent as a data URL; the same path given as the mask is sent as it is.
    Two mask sources at once are accepted, where two primary sources are
    refused. *)
Lemma face_swap_mask_gets_no_resolution :
  map req_json
    (sent (run_image_to_image api "face-swap" None (Some "m.png") None ∅
             (world [ok_image] {["m.png" := [Byte.x01; Byte.x02; Byte.x03]]} 0)).2)
  = [ {["image" := JStr "data:image/jpeg;base64,AQID"]} ] /\
  map req_json
    (sent (run_face_swap api (Some "http://host/face.jpg") None None (Some "m.png") ∅
             (world [ok_image] {["m.png" := [Byte.x01; Byte.x02; Byte.x03]]} 0)).2)
  = [ <["mask" := JStr "m.png"]> {["image" := JStr "http://host/face.jpg"]} ] /\
  (run_face_swap api (Some "http://host/face.jpg") None None
     (Some "http://host/mask.jpg") {["mask_base64" := JStr "QUJD"]}
     (world [ok_image] ∅ 0)).1
  = Return (@RImage RawCodec [Byte.xff; Byte.xd8; Byte.xff]) /\
  exists msg,
    (run_image_to_image api "face-swap" (Some "http://host/face.jpg") None
       (Some "QUJD") ∅ (world [ok_image] ∅ 0)).1
    = Raise (mkExn ValueError msg).
Proof. repeat split; try (by vm_compute). eexists. by vm_compute. Qed.

Lemma raw_codec_png_lossless : @png_lossless RawCodec.
Proof. intros img buf H. injection H as <-. by exists img. Defined.

Lemma png_round_trip_pixels_run :
  exists s img',
    @image_to_base64 RawCodec [Byte.x89; Byte.x50; Byte.x4e; Byte.x47] "PNG" = Return s /\
    @base64_to_image RawCodec s = Return img' /\
    @pixels RawCodec img' = [137; 80; 78; 71].
Proof.
  exact (@png_round_trip_pixels RawCodec [Byte.x89; Byte.x50; Byte.x4e; Byte.x47]
           [Byte.x89; Byte.x50; Byte.x4e; Byte.x47] raw_codec_png_lossless eq_refl).
Defined.

Lemma too_many_rate_limited : rate_limited too_many.
Proof. split; [reflexivity|]. right. by eexists. Defined.

Lemma twentieth_in_range (k : nat) : (0 <= 1 # 20 <= 1 # 10)%Q.
Proof. split; discriminate. Defined.

Lemma backoff_succeeds_after_two_refusals_run :
  exists w',
    run_with_backoff (run_text_to_image api "sdxl1.0-txt2img" ∅) 5 1
      (world [too_many; too_many; ok_json] ∅ (1 # 20))
    = Some (Return (@RJson RawCodec (JObj {["foo" := JStr "bar"]})), w') /\
    network w' = [] /\
    sent w' =
      [] ++ [mkRequest (BASE_URL +:+ "sdxl1.0-txt2img") ∅ (api_headers api);
             mkRequest (BASE_URL +:+ "sdxl1.0-txt2img") ∅ (api_headers api);
             mkRequest (BASE_URL +:+ "sdxl1.0-txt2img") ∅ (api_headers api)] /\
    drawn w' = 2%nat /\
    slept w' = [] ++ [(1 + (1 # 20) * 1)%Q; (1 * 2 + (1 # 20) * (1 * 2))%Q] /\
    (1 == base_delay 1 0)%Q /\
    (1 * 2 == base_delay 1 1)%Q /\
    (0 <= (1 # 20) * 1 <= (1 # 10) * 1)%Q /\
    (0 <= (1 # 20) * (1 * 2) <= (1 # 10) * (1 * 2))%Q /\
    (1 + 1 * 2 == 3 * 1)%Q /\
    (3 * 1 <= total [(1 + (1 # 20) * 1)%Q; (1 * 2 + (1 # 20) * (1 * 2))%Q])%Q.
Proof.
  apply (@backoff_succeeds_after_two_refusals RawCodec no_repr api "sdxl1.0-txt2img" ∅
           too_many too_many ok_json [] (RJson (JObj {["foo" := JStr "bar"]})) 1
           (world [too_many; too_many; ok_json] ∅ (1 # 20))).
  - reflexivity.
  - exact too_many_rate_limited.
  - exact too_many_rate_limited.
  - reflexivity.
  - reflexivity.
  - discriminate.
  - exact twentieth_in_range.
Defined.

Lemma backoff_exhausted_raises_last_error_run :
  exists e w',
    run_handle too_many = Raise e /\
    run_with_backoff (run_text_to_image api "sdxl1.0-txt2img" ∅) 2 1
      (world [too_many; too_many; too_many; ok_json] ∅ (1 # 20))
    = Some (Raise e, w') /\
    sent w' =
      [] ++ [mkRequest (BASE_URL +:+ "sdxl1.0-txt2img") ∅ (api_headers api);
             mkRequest (BASE_URL +:+ "sdxl1.0-txt2img") ∅ (api_headers api);
             mkRequest (BASE_URL +:+ "sdxl1.0-txt2img") ∅ (api_headers api)] /\
    length (slept w') = (0 + 2)%nat /\
    network w' = [ok_json].
Proof.
  apply (@backoff_exhausted_raises_last_error RawCodec no_repr api "sdxl1.0-txt2img" ∅
           too_many too_many too_many [ok_json] 1
           (world [too_many; too_many; too_many; ok_json] ∅ (1 # 20))).
  - reflexivity.
  - exact too_many_rate_limited.
  - exact too_many_rate_limited.
  - exact too_many_rate_limited.
  - discriminate.
  - intros k. discriminate.
Defined.

(** C7 fails on the code.  The reply has status 500, not 429, but its detail
    text contains the digits 429: the wrapper takes the error for a rate
    limit, sleeps and posts again instead of handing the error on. *)
Theorem backoff_retries_on_message_text :
  status_code server_fault = 500 /\
  run_handle server_fault =
    Raise (mkExn PlainException
             "API request failed with status code 500: upstream job 4290 crashed") /\
  exists w',
    run_with_backoff (run_text_to_image api "sdxl1.0-txt2img" ∅) 5 1
      (world [server_fault; ok_json] ∅ (1 # 20))
    = Some (Return (@RJson RawCodec (JObj {["foo" := JStr "bar"]})), w') /\
    slept w' = [(21 # 20)%Q] /\
    length (sent w') = 2%nat.
Proof.
  split; [reflexivity|]. split; [by vm_compute|].
  eexists. split; [by vm_compute|]. split; reflexivity.
Qed.

End Runs.

(** * Further properties of the code *)

(** ** Data URLs *)

Lemma str_in_char_cons (c x : ascii) (s : string) :
  str_in (String c EmptyString) (String x s) =
  Ascii.eqb c x || str_in (String c EmptyString) s.
Proof. cbn [str_in startswith]. by rewrite startswith_nil, andb_true_r. Qed.

Lemma str_in_char_app (c : ascii) (a b : string) :
  str_in (String c EmptyString) (a +:+ b) =
  str_in (String c EmptyString) a || str_in (String c EmptyString) b.
Proof.
  induction a as [|x a IH].
  - reflexivity.
  - change (String x a +:+ b) with (String x (a +:+ b)).
    by rewrite !str_in_char_cons, IH, orb_assoc.
Qed.

Lemma after_first_comma_app (hdr t : string) :
  str_in "," hdr = false ->
  after_first_comma (hdr +:+ "," +:+ t) = Some t.
Proof.
  induction hdr as [|x hdr IH]; intros H.
  - reflexivity.
  - rewrite str_in_char_cons in H. apply orb_false_iff in H as [Hx Hh].
    change (String x hdr +:+ "," +:+ t) with (String x (hdr +:+ "," +:+ t)).
    cbn [after_first_comma]. rewrite Ascii.eqb_sym, Hx. by apply IH.
Qed.

Lemma b64encode_no_comma (bs : bytes) : str_in "," (Base64.b64encode bs) = false.
Proof.
  assert (Hc : forall n, (n < 64)%N -> Ascii.eqb "," (Base64.char_of n) = false).
  { intros n Hn. rewrite Ascii.eqb_sym. apply (Base64Facts.sextet_facts n Hn). }
  assert (Hlen : forall n (l : bytes), (length l <= n)%nat ->
             str_in "," (Base64.b64encode l) = false).
  { induction n as [|n IH]; intros l Hl.
    { by destruct l; [|simpl in Hl; lia]. }
    destruct l as [|a [|b [|c rest]]]; [done|..].
    - destruct (Base64Facts.sextet_arith (Byte.to_N a) 0 0
                  (Base64Facts.to_N_lt a) eq_refl eq_refl) as (H0 & H1 & _).
      rewrite N.add_0_r in H1.
      cbn [Base64.b64encode]. cbv zeta.
      rewrite !str_in_char_cons, !Hc by assumption. reflexivity.
    - destruct (Base64Facts.sextet_arith (Byte.to_N a) (Byte.to_N b) 0
                  (Base64Facts.to_N_lt a) (Base64Facts.to_N_lt b) eq_refl)
        as (H0 & H1 & H2 & _).
      rewrite N.add_0_r in H2.
      cbn [Base64.b64encode]. cbv zeta.
      rewrite !str_in_char_cons, !Hc by assumption. reflexivity.
    - destruct (Base64Facts.sextet_arith (Byte.to_N a) (Byte.to_N b) (Byte.to_N c)
                  (Base64Facts.to_N_lt a) (Base64Facts.to_N_lt b)
                  (Base64Facts.to_N_lt c)) as (H0 & H1 & H2 & H3 & _).
      cbn [Base64.b64encode]. cbv zeta.
      rewrite !str_in_char_cons, !Hc by assumption. simpl.
      apply IH. simpl in Hl. lia. }
  by apply (Hlen (length bs)).
Qed.

Section DataUrlFacts.

Context `{PIL : ImageCodec}.

Lemma base64_to_image_with_header (hdr : string) (buf : bytes) :
  str_in "," hdr = false ->
  base64_to_image (hdr +:+ "," +:+ Base64.b64encode buf) = opened buf.
Proof.
  intros Hh. unfold base64_to_image, opened.
  rewrite (str_in_intro hdr "," (Base64.b64encode buf)).
  rewrite after_first_comma_app by done.
  by rewrite Base64Facts.b64decode_b64encode.
Qed.

(** X1. [base64_to_image] cuts its input at the first comma and never looks
    at what stands before it: for any header without a comma, whatever media
    type it names, the bytes handed to [Image.open] are the bytes that were
    encoded.  Text without any comma is decoded as it is. *)
Theorem base64_to_image_ignores_header (hdr : string) (buf : bytes) :
  str_in "," hdr = false ->
  base64_to_image (hdr +:+ "," +:+ Base64.b64encode buf) = opened buf /\
  base64_to_image (Base64.b64encode buf) = opened buf.
Proof.
  intros Hh. split; [by apply base64_to_image_with_header|].
  unfold base64_to_image, opened.
  by rewrite b64encode_no_comma, Base64Facts.b64decode_b64encode.
Qed.

(** X2. For every format name whose lower-case form has no comma (the
    default JPEG included), decoding the text that [image_to_base64] built
    opens exactly the bytes that [Image.save] wrote for that format. *)
Theorem image_to_base64_then_decode (img : Image) (format : string) (buf : bytes) :
  Image_save img format = Some buf ->
  str_in "," (lower format) = false ->
  exists s,
    image_to_base64 img format = Return s /\
    startswith s ("data:image/" +:+ lower format +:+ ";base64,") = true /\
    base64_to_image s = opened buf.
Proof.
  intros Hsave Hfmt.
  exists ("data:image/" +:+ lower format +:+ ";base64," +:+ Base64.b64encode buf).
  split; [unfold image_to_base64; by rewrite Hsave|]. split.
  - rewrite <- !append_assoc. apply startswith_app.
  - change (";base64," +:+ Base64.b64encode buf)
      with (";base64" +:+ "," +:+ Base64.b64encode buf).
    replace ("data:image/" +:+ lower format +:+ ";base64" +:+ ","
             +:+ Base64.b64encode buf)
      with ((("data:image/" +:+ lower format) +:+ ";base64") +:+ ","
            +:+ Base64.b64encode buf)
      by (by rewrite !append_assoc).
    apply base64_to_image_with_header.
    rewrite !str_in_char_app, Hfmt. reflexivity.
Qed.

(** The default format: the text is not empty, names [image/jpeg] and
    decodes to the saved bytes. *)
Lemma image_to_base64_jpeg (img : Image) (buf : bytes) :
  Image_save img "JPEG" = Some buf ->
  exists s,
    image_to_base64 img "JPEG" = Return s /\
    s <> "" /\
    startswith s "data:image/jpeg;base64," = true /\
    base64_to_image s = opened buf.
Proof.
  intros Hsave.
  exists ("data:image/jpeg;base64," +:+ Base64.b64encode buf).
  split; [|split; [|split]].
  - unfold image_to_base64. by rewrite Hsave.
  - discriminate.
  - apply startswith_app.
  - change ("data:image/jpeg;base64," +:+ Base64.b64encode buf)
      with ("data:image/jpeg;base64" +:+ "," +:+ Base64.b64encode buf).
    by apply base64_to_image_with_header.
Qed.

End DataUrlFacts.

(** ** More on the client *)
Section ClientMore.

Context `{PIL : ImageCodec}.
Variable py_repr : JValue -> string.

(** *** Construction *)

(** X3. An empty string counts as no credential, for the argument and for
    the environment alike: construction fails exactly when both are missing
    or empty, a non-empty argument always wins, and the environment is used
    only when the argument is missing or empty. *)
Theorem init_credential_precedence (key : option string)
    (environ : gmap string string) :
  ((exists e, __init__ key environ = Raise e) <->
   truthy_val key = None /\ truthy_val (environ !! "SEGMIND_API_KEY") = None) /\
  (forall k, truthy_val key = Some k ->
     exists self, __init__ key environ = Return self /\ api_key self = k) /\
  (forall k, truthy_val key = None ->
     truthy_val (environ !! "SEGMIND_API_KEY") = Some k ->
     exists self, __init__ key environ = Return self /\ api_key self = k).
Proof.
  unfold __init__, py_or.
  destruct (truthy_val key) as [k|] eqn:Hk; rewrite ?Hk.
  - split; [split|split].
    + intros [e He]. discriminate.
    + intros [H _]. discriminate.
    + intros k' [= <-]. by eexists.
    + intros k' H. discriminate.
  - destruct (truthy_val (environ !! "SEGMIND_API_KEY")) as [k|] eqn:He.
    + split; [split|split].
      * intros [e H]. discriminate.
      * intros [_ H]. discriminate.
      * intros k' H. discriminate.
      * intros k' _ [= <-]. by eexists.
    + split; [split|split].
      * done.
      * intros _. by eexists.
      * intros k' H. discriminate.
      * intros k' _ H. discriminate.
Qed.

(** *** [image_to_image] *)

Lemma image_to_image_one_source self model_name (src : string)
    (params : gmap string JValue) :
  src <> "" ->
  image_to_image py_repr self model_name (Some src) None None params =
    text_to_image py_repr self model_name (<["image" := JStr src]> params) /\
  image_to_image py_repr self model_name None None (Some src) params =
    text_to_image py_repr self model_name (<["image" := JStr src]> params).
Proof.
  intros Hs.
  assert (Ht : truthy_val (Some src) = Some src).
  { simpl. by destruct (String.eqb_spec src ""). }
  unfold image_to_image.
  change (negb (count_not_None [Some src; None; None] =? 1)) with false.
  change (negb (count_not_None [None; None; Some src] =? 1)) with false.
  rewrite Ht. split; reflexivity.
Qed.

(** X4. A URL or inline data is sent exactly as given under [image],
    replacing any [image] entry among the extra parameters, and the call then
    is [text_to_image] on that body. *)
Theorem image_to_image_forwards_source self model_name (src : string)
    (params : gmap string JValue) :
  src <> "" ->
  image_to_image py_repr self model_name (Some src) None None params =
    text_to_image py_repr self model_name (<["image" := JStr src]> params) /\
  image_to_image py_repr self model_name None None (Some src) params =
    text_to_image py_repr self model_name (<["image" := JStr src]> params).
Proof.
  intros Hs.
  destruct (image_to_image_one_source self model_name src params Hs) as [Hu Hb].
  by rewrite Hu, Hb.
Qed.

(** X5. A local file that does not exist ends the call with
    [FileNotFoundError] before anything is posted. *)
Theorem image_to_image_missing_file self model_name (path : string)
    (params : gmap string JValue) (w : World) :
  path <> "" ->
  files w !! path = None ->
  exists msg,
    image_to_image py_repr self model_name None (Some path) None params w =
    (Raise (mkExn FileNotFoundError msg), w).
Proof.
  intros Hp Hf.
  assert (Ht : truthy_val (Some path) = Some path).
  { simpl. by destruct (String.eqb_spec path ""). }
  unfold image_to_image.
  change (negb (count_not_None [None; Some path; None] =? 1)) with false.
  rewrite Ht. cbn [truthy_val]. unfold bind, read_file. cbv beta iota.
  rewrite Hf. by eexists.
Qed.

(** X6. A local file is posted as a data URL labelled [image/jpeg] whatever
    the file holds, and decoding that text with [base64_to_image] opens the
    very bytes of the file; the outcome of the call is the classification of
    the reply. *)
Theorem image_to_image_local_file_round_trip self model_name (path : string)
    (params : gmap string JValue) (data : bytes) (r : Response)
    (rest : list Response) (w : World) :
  path <> "" ->
  files w !! path = Some data ->
  network w = r :: rest ->
  exists s,
    image_to_image py_repr self model_name None (Some path) None params w =
      (_handle_response py_repr r,
       mkWorld rest
         (sent w ++ [mkRequest (BASE_URL +:+ model_name)
                       (<["image" := JStr s]> params) (api_headers self)])
         (files w) (uniform w) (drawn w) (slept w)) /\
    startswith s "data:image/jpeg;base64," = true /\
    base64_to_image s = opened data.
Proof.
  intros Hp Hf Hn.
  assert (Ht : truthy_val (Some path) = Some path).
  { simpl. by destruct (String.eqb_spec path ""). }
  exists ("data:image/jpeg;base64," +:+ Base64.b64encode data).
  split; [|split].
  - unfold image_to_image.
    change (negb (count_not_None [None; Some path; None] =? 1)) with false.
    rewrite Ht. cbn [truthy_val]. unfold bind, read_file, post, lift.
    cbv beta iota. by rewrite Hf, Hn.
  - apply startswith_app.
  - change ("data:image/jpeg;base64," +:+ Base64.b64encode data)
      with ("data:image/jpeg;base64" +:+ "," +:+ Base64.b64encode data).
    by apply base64_to_image_with_header.
Qed.

(** *** Failure bodies that are JSON but not objects *)

Lemma has_error_entry (l : list JValue) :
  existsb (fun x => match x with
                    | JStr s => String.eqb s "error"
                    | _ => false
                    end) l = true <-> In (JStr "error") l.
Proof.
  rewrite existsb_exists. split.
  - intros (x & Hin & Hx). destruct x; try discriminate.
    apply String.eqb_eq in Hx. by subst.
  - intros Hin. exists (JStr "error"). split; [done|]. apply String.eqb_refl.
Qed.

(** X7. On a status other than 200 the message is built by looking for an
    [error] key in the parsed body, whatever that body is.  A JSON [null],
    boolean or number ends the call with [TypeError] instead of the HTTP
    failure; so does a JSON string that contains the text [error] and a JSON
    array that has the string [error] as an element.  A string or array
    without it gives the failure with the status alone. *)
Theorem failure_body_not_an_object (r : Response) :
  status_code r <> 200 ->
  (json r = Some JNull \/ (exists b, json r = Some (JBool b)) \/
   (exists n, json r = Some (JInt n)) \/ (exists q, json r = Some (JFloat q)) ->
   exists msg, _handle_response py_repr r = Raise (mkExn TypeError msg)) /\
  (forall s, json r = Some (JStr s) ->
     if str_in "error" s
     then exists msg, _handle_response py_repr r = Raise (mkExn TypeError msg)
     else _handle_response py_repr r =
            Raise (mkExn PlainException
                     ("API request failed with status code "
                      +:+ str_of_int (status_code r)))) /\
  (forall l, json r = Some (JArr l) ->
     (In (JStr "error") l ->
      exists msg, _handle_response py_repr r = Raise (mkExn TypeError msg)) /\
     (~ In (JStr "error") l ->
      _handle_response py_repr r =
        Raise (mkExn PlainException
                 ("API request failed with status code "
                  +:+ str_of_int (status_code r))))).
Proof.
  intros Hs. rewrite handle_response_failure by done. unfold failure_message.
  split; [|split].
  - intros [H|[[b H]|[[n H]|[q H]]]]; rewrite H; simpl; by eexists.
  - intros s H. rewrite H. simpl. destruct (str_in "error" s); [by eexists|done].
  - intros l H. rewrite H. cbn [has_error_key].
    split; intros Hin.
    + apply has_error_entry in Hin. rewrite Hin. simpl. by eexists.
    + destruct (existsb _ l) eqn:E; [|done].
      apply has_error_entry in E. contradiction.
Qed.

(** *** One exchange per call *)

Lemma one_exchange_pure {A} self url (o : Outcome A) : one_exchange self url (lift o).
Proof. intros w. repeat split. by left. Qed.

Lemma one_exchange_raise {A} self url c msg : one_exchange self url (@raise A c msg).
Proof. apply (one_exchange_pure self url (Raise (mkExn c msg))). Qed.

Lemma one_exchange_post {A} self url body (k : Response -> M A) :
  (forall r w, (k r w).2 = w) ->
  one_exchange self url (bind (post url body (api_headers self)) k).
Proof.
  intros Hk w. unfold bind, post.
  destruct (network w) as [|r rest]; simpl.
  - repeat split. right. by eexists.
  - pose proof (Hk r (mkWorld rest
        (sent w ++ [mkRequest url body (api_headers self)])
        (files w) (uniform w) (drawn w) (slept w))) as E.
    destruct (k r _) as [o w1]. simpl in E. subst w1. simpl.
    repeat split. right. by eexists.
Qed.

Lemma one_exchange_classify self url body :
  one_exchange self url
    (bind (post url body (api_headers self))
       (fun response => lift (_handle_response py_repr response))).
Proof. by apply one_exchange_post. Qed.

Lemma one_exchange_forward {A} self url params (m : M A) :
  one_exchange self url m -> one_exchange self url (forward params m).
Proof.
  intros H. unfold forward.
  destruct (is_not_None _); [apply one_exchange_raise|done].
Qed.

Lemma one_exchange_read_file {A} self url path (k : bytes -> M A) :
  (forall data, one_exchange self url (k data)) ->
  one_exchange self url (bind (read_file path) k).
Proof.
  intros Hk w. unfold bind, read_file.
  destruct (files w !! path) as [data|]; [apply Hk|].
  simpl. repeat split. by left.
Qed.

Lemma one_exchange_image_to_image self model_name u p b params :
  one_exchange self (BASE_URL +:+ model_name)
    (image_to_image py_repr self model_name u p b params).
Proof.
  unfold image_to_image.
  destruct (negb _); [apply one_exchange_raise|].
  destruct (truthy_val u); [apply one_exchange_classify|].
  destruct (truthy_val p) as [path|].
  { apply one_exchange_read_file. intros data. apply one_exchange_classify. }
  destruct (truthy_val b); [apply one_exchange_classify|apply one_exchange_raise].
Qed.

Lemma one_exchange_run_call self (c : Call) :
  one_exchange self (BASE_URL +:+ endpoint_of c) (run_call py_repr self c).
Proof.
  destruct c; cbn [run_call endpoint_of];
    try (apply one_exchange_forward);
    try (apply one_exchange_image_to_image);
    try (apply one_exchange_classify).
  (* [veo_3] classifies the reply by itself *)
  apply one_exchange_post. intros r w.
  destruct (status_code r =? 200); [done|].
  by destruct (failure_message py_repr r).
Qed.

(** X8. Whatever the arguments and the reply, a call of the client performs
    at most one exchange: either it touches nothing, or it posts one request
    to the base URL followed by the endpoint of the call, with the client's
    headers, and consumes one reply.  No call sleeps, draws a random number
    or changes a file. *)
Theorem run_call_one_exchange self (c : Call) (w : World) :
  files (run_call py_repr self c w).2 = files w /\
  slept (run_call py_repr self c w).2 = slept w /\
  drawn (run_call py_repr self c w).2 = drawn w /\
  ((sent (run_call py_repr self c w).2 = sent w /\
    network (run_call py_repr self c w).2 = network w) \/
   exists body,
     sent (run_call py_repr self c w).2 =
       sent w ++ [mkRequest (BASE_URL +:+ endpoint_of c) body (api_headers self)] /\
     network (run_call py_repr self c w).2 = tail (network w)).
Proof.
  destruct (one_exchange_run_call self c w) as (Hfiles & Hslept & Hdrawn & Hpost).
  repeat split; assumption.
Qed.

(** *** Validation reaches every image method *)

Lemma set_truthy_lookup_ne k k' v (m : gmap string JValue) :
  k <> k' -> set_truthy k v m !! k' = m !! k'.
Proof.
  intros Hk. unfold set_truthy.
  destruct (truthy_val v); [by apply lookup_insert_ne|done].
Qed.

Lemma forward_image_to_image_rejects self model_name u p b params w :
  params !! "model_name" = None ->
  count_not_None [u; p; b] <> 1 ->
  exists msg,
    forward params (image_to_image py_repr self model_name u p b params) w
    = (Raise (mkExn ValueError msg), w).
Proof.
  intros Hm Hn. unfold forward. rewrite Hm. simpl.
  by apply image_to_image_count_check.
Qed.

Lemma image_call_rejects self (c : Call)
    (sources : list (option string)) (w : World) :
  image_sources c = Some sources ->
  count_not_None sources <> 1 ->
  kwargs_of c !! "model_name" = None ->
  exists msg, run_call py_repr self c w = (Raise (mkExn ValueError msg), w).
Proof.
  intros Hsrc Hn Hkw.
  destruct c; simpl in Hsrc; try discriminate;
    injection Hsrc as <-; cbn [run_call kwargs_of] in *.
  - by apply image_to_image_count_check.
  - apply forward_image_to_image_rejects; [|done].
    rewrite lookup_union_r by done. by rewrite set_truthy_lookup_ne.
  - apply forward_image_to_image_rejects; [|done].
    rewrite lookup_union_r by done. by rewrite set_truthy_lookup_ne.
  - by apply forward_image_to_image_rejects.
  - by apply forward_image_to_image_rejects.
  - by apply forward_image_to_image_rejects.
  - apply forward_image_to_image_rejects; [|done].
    rewrite lookup_union_r by done. by rewrite set_truthy_lookup_ne.
  - apply forward_image_to_image_rejects; [|done].
    rewrite lookup_union_r by done. by rewrite !lookup_insert_ne.
Qed.

Lemma run_call_collision self (c : Call) (w : World) :
  forwards_kwargs c = true ->
  is_Some (kwargs_of c !! "model_name") ->
  run_call py_repr self c w =
    (Raise (mkExn TypeError "got multiple values for argument 'model_name'"), w).
Proof.
  intros Hf [v Hv].
  destruct c; try discriminate; cbn [run_call kwargs_of] in *;
    unfold sdxl, sd_outpainting, qr_generator, word2img, background_removal,
      codeformer, sam, face_swap, controlnet;
    apply forward_collision; exists v; try done; by apply lookup_union_Some_l.
Qed.

(** X9. Every method of the client that carries an image (the generic
    [image_to_image] and the seven model methods built on it), called with a
    number of image sources that are not [None] different from one, raises
    and posts nothing.  The exception is [ValueError] when the extra keywords
    hold no [model_name]; a model method given a [model_name] keyword raises
    [TypeError] instead, the keyword colliding with the positional argument
    of [image_to_image] before the sources are counted. *)
Theorem image_calls_reject_source_count self (c : Call)
    (sources : list (option string)) (w : World) :
  image_sources c = Some sources ->
  count_not_None sources <> 1 ->
  (kwargs_of c !! "model_name" = None ->
   exists msg, run_call py_repr self c w = (Raise (mkExn ValueError msg), w)) /\
  (forwards_kwargs c = true -> is_Some (kwargs_of c !! "model_name") ->
   exists msg, run_call py_repr self c w = (Raise (mkExn TypeError msg), w)) /\
  (exists e,
     run_call py_repr self c w = (Raise e, w) /\
     (exn_class e = ValueError \/ exn_class e = TypeError)).
Proof.
  intros Hsrc Hn.
  assert (Hty : forwards_kwargs c = true -> is_Some (kwargs_of c !! "model_name") ->
                exists msg, run_call py_repr self c w = (Raise (mkExn TypeError msg), w)).
  { intros Hf Hkw. eexists. by apply run_call_collision. }
  split; [by apply (image_call_rejects self c sources w)|].
  split; [exact Hty|].
  destruct (kwargs_of c !! "model_name") as [v|] eqn:Hkw.
  - destruct (forwards_kwargs c) eqn:Hf.
    + destruct Hty as [msg Hrun]; [done|by exists v|].
      eexists. split; [exact Hrun|by right].
    + destruct c; simpl in Hsrc, Hf; try discriminate. injection Hsrc as <-.
      destruct (image_to_image_count_check py_repr self model_name image_url image_path
                  image_base64 params w Hn) as [msg Hrun].
      eexists. split; [exact Hrun|by left].
  - destruct (image_call_rejects self c sources w Hsrc Hn) as [msg Hrun]; [done|].
    eexists. split; [exact Hrun|by left].
Qed.

(** *** The video method *)

(** X10. [veo_3] gives back the raw body of a reply with status 200 even
    when the reply declares an image or holds JSON; on any other status it
    ends exactly as [_handle_response] would. *)
Theorem veo_3_returns_raw_body self prompt seed kwargs (r : Response)
    (rest : list Response) (w : World) :
  network w = r :: rest ->
  (veo_3 py_repr self prompt seed kwargs w).1 =
    if status_code r =? 200 then Return (RBytes (content r))
    else _handle_response py_repr r.
Proof.
  intros Hn. unfold veo_3, bind, post. rewrite Hn. cbv beta iota.
  destruct (Z.eqb_spec (status_code r) 200) as [E|E]; [done|].
  rewrite handle_response_failure by done.
  by destruct (failure_message py_repr r).
Qed.

(** *** Optional parameters of [sdxl] *)

Lemma lookup_set_opt k k' (v : option JValue) (m : gmap string JValue) :
  set_opt k v m !! k' =
  if decide (k = k') then match v with Some x => Some x | None => m !! k' end
  else m !! k'.
Proof.
  unfold set_opt. destruct v as [x|].
  - rewrite lookup_insert. by destruct (decide (k = k')).
  - by destruct (decide (k = k')).
Qed.

Lemma text_to_image_sent self model_name params w :
  sent (text_to_image py_repr self model_name params w).2 =
  sent w ++ [mkRequest (BASE_URL +:+ model_name) params (api_headers self)].
Proof. unfold text_to_image, bind, post, lift. by destruct (network w). Qed.

(** X11. The extra keywords of [sdxl] never hold the names of its own six
    parameters (Python binds those to the parameters).  With such keywords
    and no [model_name] among them, [sdxl] posts exactly one request, to
    [sdxl1.0-txt2img], whose body has [prompt] and [base64]; each of
    [negative_prompt], [steps], [seed] and [aspect_ratio] is in the body with
    the value given when it is not [None] and is left out of the body, not
    sent as null, when it is [None]; every other entry of the body is the
    extra keyword of that name.  With a [model_name] keyword [sdxl] raises
    [TypeError] and posts nothing. *)
Theorem sdxl_leaves_out_absent_options self (prompt : string)
    (negative_prompt : option string) (steps seed : option Z)
    (aspect_ratio : option string) (base64 : bool)
    (kwargs : gmap string JValue) (w : World) :
  (forall k, In k ["prompt"; "base64"; "negative_prompt"; "steps"; "seed";
                   "aspect_ratio"] -> kwargs !! k = None) ->
  (kwargs !! "model_name" = None ->
   exists body,
     sent (sdxl py_repr self prompt negative_prompt steps seed aspect_ratio base64
             kwargs w).2
     = sent w ++ [mkRequest (BASE_URL +:+ "sdxl1.0-txt2img") body (api_headers self)] /\
     body !! "prompt" = Some (JStr prompt) /\
     body !! "base64" = Some (JBool base64) /\
     body !! "negative_prompt" = JStr <$> negative_prompt /\
     body !! "steps" = JInt <$> steps /\
     body !! "seed" = JInt <$> seed /\
     body !! "aspect_ratio" = JStr <$> aspect_ratio /\
     (forall k, ~ In k ["prompt"; "base64"; "negative_prompt"; "steps"; "seed";
                        "aspect_ratio"] -> body !! k = kwargs !! k)) /\
  (is_Some (kwargs !! "model_name") ->
   exists msg,
     sdxl py_repr self prompt negative_prompt steps seed aspect_ratio base64 kwargs w
     = (Raise (mkExn TypeError msg), w)).
Proof.
  intros Hk. split.
  - intros Hm. eexists. split.
    + unfold sdxl, forward.
      rewrite lookup_union_r by done.
      rewrite !lookup_set_opt. simpl.
      rewrite !lookup_insert_ne, lookup_empty by done. simpl.
      apply text_to_image_sent.
    + repeat split; try (rewrite lookup_union_r by (apply Hk; simpl; tauto));
        rewrite ?lookup_set_opt; simpl.
      * by rewrite lookup_insert_ne, lookup_insert_eq.
      * by rewrite lookup_insert_eq.
      * by destruct negative_prompt; [|rewrite !lookup_insert_ne, lookup_empty].
      * by destruct steps; [|rewrite !lookup_insert_ne, lookup_empty].
      * by destruct seed; [|rewrite !lookup_insert_ne, lookup_empty].
      * by destruct aspect_ratio; [|rewrite !lookup_insert_ne, lookup_empty].
      * intros k Hnk. simpl in Hnk.
        destruct (kwargs !! k) as [v|] eqn:E; [by apply lookup_union_Some_l|].
        rewrite lookup_union_r by exact E.
        rewrite !lookup_set_opt.
        repeat (destruct (decide (_ = k)) as [<-|_]; [tauto|]).
        rewrite !lookup_insert_ne by (intros <-; tauto). apply lookup_empty.
  - intros [v Hv]. eexists. unfold sdxl. apply forward_collision.
    exists v. by apply lookup_union_Some_l.
Qed.

(** *** Construction and the credential header *)

Lemma forward_union {A} (kwargs m : gmap string JValue) (call : M A) :
  m !! "model_name" = None ->
  forward (kwargs ∪ m) call =
    if is_not_None (kwargs !! "model_name") then
      raise TypeError "got multiple values for argument 'model_name'"
    else call.
Proof.
  intros Hm. unfold forward.
  destruct (kwargs !! "model_name") as [v|] eqn:E.
  - by rewrite (lookup_union_Some_l _ _ _ _ E).
  - by rewrite lookup_union_r, Hm by exact E.
Qed.

Lemma image_to_image_dispatch self model_name u p b params w :
  if image_source_ready u p b w then
    exists v,
      sent (image_to_image py_repr self model_name u p b params w).2 =
      sent w ++ [mkRequest (BASE_URL +:+ model_name) (<["image" := JStr v]> params)
                   (api_headers self)]
  else
    exists e, image_to_image py_repr self model_name u p b params w = (Raise e, w).
Proof.
  unfold image_source_ready, image_to_image.
  destruct (count_not_None [u; p; b] =? 1); simpl; [|by eexists].
  destruct (truthy_val u) as [x|].
  { exists x. unfold bind, post, lift. by destruct (network w). }
  destruct (truthy_val p) as [x|].
  { unfold bind, read_file, post, lift.
    destruct (files w !! x) as [data|]; simpl; [|by eexists].
    eexists. by destruct (network w). }
  destruct (truthy_val b) as [x|]; simpl; [|by eexists].
  exists x. unfold bind, post, lift. by destruct (network w).
Qed.

Lemma forward_image_to_image_dispatch self model_name u p b
    (kwargs m : gmap string JValue) w :
  m !! "model_name" = None ->
  if negb (is_not_None (kwargs !! "model_name")) && image_source_ready u p b w then
    exists body,
      sent (forward (kwargs ∪ m)
              (image_to_image py_repr self model_name u p b (kwargs ∪ m)) w).2 =
      sent w ++ [mkRequest (BASE_URL +:+ model_name) body (api_headers self)]
  else
    exists e,
      forward (kwargs ∪ m)
        (image_to_image py_repr self model_name u p b (kwargs ∪ m)) w = (Raise e, w).
Proof.
  intros Hm. rewrite forward_union by exact Hm.
  destruct (is_not_None (kwargs !! "model_name")); simpl; [by eexists|].
  pose proof (image_to_image_dispatch self model_name u p b (kwargs ∪ m) w) as H.
  destruct (image_source_ready u p b w); [|exact H].
  destruct H as [v H]. by eexists.
Qed.

Lemma run_call_dispatch self (c : Call) (w : World) :
  if reaches_network c w then
    exists body,
      sent (run_call py_repr self c w).2 =
      sent w ++ [mkRequest (BASE_URL +:+ endpoint_of c) body (api_headers self)]
  else
    exists e, run_call py_repr self c w = (Raise e, w).
Proof.
  destruct c; unfold reaches_network;
    cbn [run_call forwards_kwargs kwargs_of image_sources endpoint_of andb negb].
  - eexists. apply text_to_image_sent.
  - pose proof (image_to_image_dispatch self model_name image_url image_path
                  image_base64 params w) as H.
    destruct (image_source_ready _ _ _ w); [|exact H].
    destruct H as [v H]. by eexists.
  - unfold sdxl. rewrite forward_union.
    + destruct (is_not_None (kwargs !! "model_name")); simpl; [by eexists|].
      eexists. apply text_to_image_sent.
    + rewrite !lookup_set_opt. simpl.
      by rewrite !lookup_insert_ne, lookup_empty.
  - apply forward_image_to_image_dispatch.
    by rewrite set_truthy_lookup_ne, lookup_empty.
  - unfold qr_generator. rewrite forward_union.
    + destruct (is_not_None (kwargs !! "model_name")); simpl; [by eexists|].
      eexists. apply text_to_image_sent.
    + by rewrite !lookup_insert_ne, lookup_empty.
  - apply forward_image_to_image_dispatch.
    by rewrite set_truthy_lookup_ne, lookup_empty.
  - pose proof (forward_image_to_image_dispatch self "background-removal" image_url image_path
                  image_base64 kwargs ∅ w (lookup_empty _)) as H.
    rewrite map_union_empty in H. exact H.
  - pose proof (forward_image_to_image_dispatch self "codeformer" image_url image_path
                  image_base64 kwargs ∅ w (lookup_empty _)) as H.
    rewrite map_union_empty in H. exact H.
  - pose proof (forward_image_to_image_dispatch self "sam" image_url image_path
                  image_base64 kwargs ∅ w (lookup_empty _)) as H.
    rewrite map_union_empty in H. exact H.
  - apply forward_image_to_image_dispatch.
    by rewrite set_truthy_lookup_ne, lookup_empty.
  - apply forward_image_to_image_dispatch.
    by rewrite !lookup_insert_ne, lookup_empty.
  - eexists. unfold veo_3, bind, post.
    destruct (network w) as [|r rest]; [reflexivity|]. cbv beta iota.
    unfold ret, raise, lift.
    by destruct (status_code r =? 200), (failure_message py_repr r).
  - eexists. unfold flux_kontext_pro, bind, post, lift. by destruct (network w).
  - eexists. unfold llava_13b, bind, post, lift. by destruct (network w).
Qed.

(** C2. Without an explicit key and without [SEGMIND_API_KEY] in the
    environment, construction itself raises [ValueError].  With a non-empty
    explicit key, or with no usable explicit key and a non-empty environment
    value, construction succeeds and the client holds that value, also under
    [x-api-key] in its headers.  Every dispatch made afterwards carries it
    unchanged: [text_to_image] posts exactly one request, with the body it
    was given and the credential in its [x-api-key] header; any call of the
    client either posts exactly one request to its endpoint with the
    credential in that header or raises having posted nothing, the latter
    when a [model_name] keyword collides or the image sources are not usable
    (not exactly one given, the one given empty, or a path that cannot be
    read); and every request posted by any sequence of calls has the
    credential in that header. *)
Theorem credential_resolved_at_construction
    (key : option string) (environ : gmap string string) :
  (key = None -> environ !! "SEGMIND_API_KEY" = None ->
   exists msg, __init__ key environ = Raise (mkExn ValueError msg)) /\
  (forall k, k <> "" ->
     key = Some k \/
     (truthy_val key = None /\ environ !! "SEGMIND_API_KEY" = Some k) ->
     exists self,
       __init__ key environ = Return self /\
       api_key self = k /\
       api_headers self !! "x-api-key" = Some k /\
       (forall model_name params w,
          exists rq,
            sent (text_to_image py_repr self model_name params w).2 = sent w ++ [rq] /\
            req_url rq = BASE_URL +:+ model_name /\
            req_json rq = params /\
            req_headers rq !! "x-api-key" = Some k) /\
       (forall c w,
          if reaches_network c w then
            exists rq,
              sent (run_call py_repr self c w).2 = sent w ++ [rq] /\
              req_url rq = BASE_URL +:+ endpoint_of c /\
              req_headers rq !! "x-api-key" = Some k
          else
            exists e, run_call py_repr self c w = (Raise e, w)) /\
       (forall cs w, exists new,
          sent (run_calls py_repr self cs w).2 = sent w ++ new /\
          Forall (fun rq => req_headers rq !! "x-api-key" = Some k) new)).
Proof.
  split.
  - intros -> He. unfold __init__, py_or. simpl. rewrite He. simpl. by eexists.
  - intros k Hk Hsrc.
    assert (Hres : truthy_val (py_or key (environ !! "SEGMIND_API_KEY")) = Some k).
    { assert (Htk : truthy_val (Some k) = Some k).
      { simpl. by destruct (String.eqb_spec k ""). }
      destruct Hsrc as [->|[Hkey He]]; unfold py_or.
      - by rewrite Htk.
      - by rewrite Hkey, He. }
    unfold __init__. rewrite Hres.
    set (self := mkAPI k (<["x-api-key" := k]>
                            (<["Content-Type" := "application/json"]> ∅))).
    assert (Hhdr : api_headers self !! "x-api-key" = Some k)
      by apply lookup_insert_eq.
    exists self. split; [reflexivity|]. split; [reflexivity|].
    split; [exact Hhdr|]. split; [|split].
    + intros model_name params w. eexists.
      split; [apply text_to_image_sent|]. by repeat split.
    + intros c w. pose proof (run_call_dispatch self c w) as H.
      destruct (reaches_network c w); [|exact H].
      destruct H as [body H]. eexists. split; [exact H|]. by split.
    + intros cs w.
      destruct (stamped_run_calls py_repr self cs w) as (new & E & F).
      exists new. split; [exact E|].
      eapply Forall_impl; [exact F|].
      by intros rq ->.
Qed.

End ClientMore.

(** ** More on the retry wrapper *)
Section BackoffMore.

Context {A : Type}.
Variable func : M A.

(** X12. With [max_retries = 0] the wrapper is a single plain call: its
    outcome and its effects are those of the wrapped function, and it never
    sleeps, whatever the error says. *)
Theorem run_with_backoff_zero_retries (initial_delay : Q) (w : World) :
  run_with_backoff func 0 initial_delay w = Some (func w).
Proof.
  unfold run_with_backoff. cbn [Z.to_nat backoff_loop Z.leb Z.compare].
  destruct (func w) as [[v|e] w1]; [done|].
  by rewrite Z.ltb_irrefl, andb_false_r.
Qed.

(** X13. With a negative [max_retries] the wrapped function is never called:
    the wrapper raises [Exception("Failed after <max_retries> retries")] and
    leaves the world as it was. *)
Theorem run_with_backoff_negative_budget (max_retries : Z) (initial_delay : Q)
    (w : World) :
  max_retries < 0 ->
  run_with_backoff func max_retries initial_delay w =
    Some (Raise (mkExn PlainException
                   ("Failed after " +:+ str_of_int max_retries +:+ " retries")), w).
Proof.
  intros Hm. unfold run_with_backoff. cbn [backoff_loop].
  destruct (Z.leb_spec 0 max_retries); [lia|reflexivity].
Qed.

(** X14. With a non-negative [max_retries], a first call that returns, or
    that raises an exception whose message does not contain [429], is the
    whole run: same outcome, same effects, no pause. *)
Theorem run_with_backoff_passes_through (max_retries : Z) (initial_delay : Q)
    (w : World) :
  0 <= max_retries ->
  (forall e, (func w).1 = Raise e -> str_in "429" (exn_msg e) = false) ->
  run_with_backoff func max_retries initial_delay w = Some (func w).
Proof.
  intros Hm He. unfold run_with_backoff. cbn [backoff_loop].
  destruct (Z.leb_spec 0 max_retries); [|lia].
  destruct (func w) as [[v|e] w1]; [done|].
  by rewrite (He e eq_refl).
Qed.

Lemma backoff_pause_effect (delay : Q) (w : World) :
  sent (backoff_pause delay w).2 = sent w /\
  (length (slept (backoff_pause delay w).2) <= length (slept w) + 1)%nat.
Proof.
  unfold backoff_pause, bind, random_uniform, sleep. simpl.
  destruct (Qle_bool 0 _); simpl; [|split; [done|lia]].
  split; [done|]. rewrite length_app. simpl. lia.
Qed.

(** Posts and pauses of the loop, for a function that posts at most once per
    call and does not sleep. *)
Lemma backoff_loop_effort (max_retries : Z) :
  (forall w, (length (sent (func w).2) <= length (sent w) + 1)%nat /\
             slept (func w).2 = slept w) ->
  forall fuel retries delay w o w',
    backoff_loop func max_retries fuel retries delay w = Some (o, w') ->
    (length (sent w') <= length (sent w) + Z.to_nat (max_retries - retries + 1))%nat /\
    (length (slept w') <= length (slept w) + Z.to_nat (max_retries - retries))%nat.
Proof.
  intros Hf. induction fuel as [|fuel IH]; intros retries delay w o w' Hrun;
    [discriminate|].
  cbn [backoff_loop] in Hrun.
  destruct (Z.leb_spec retries max_retries) as [Hr|Hr];
    [|injection Hrun as <- <-; lia].
  destruct (Hf w) as [Hs Hz].
  destruct (func w) as [[v|e] w1]; simpl in Hs, Hz.
  { injection Hrun as <- <-. rewrite Hz. lia. }
  destruct (str_in "429" (exn_msg e) && (retries <? max_retries)) eqn:Hc.
  2: { injection Hrun as <- <-. rewrite Hz. lia. }
  apply andb_true_iff in Hc as [_ Hlt]. apply Z.ltb_lt in Hlt.
  destruct (backoff_pause_effect delay w1) as [Hps Hpz].
  destruct (backoff_pause delay w1) as [[[]|e'] w2]; simpl in Hps, Hpz.
  - apply IH in Hrun as [H1 H2]. rewrite Hps in H1. rewrite Hz in Hpz. lia.
  - injection Hrun as <- <-. rewrite Hps. rewrite Hz in Hpz. lia.
Qed.

End BackoffMore.

(** ** More on the retry wrapper around a dispatch *)
Section BackoffDispatchMore.

Context `{PIL : ImageCodec}.
Variable py_repr : JValue -> string.
Variable self : SegmindAPI.

(** X15. Wrapped around any call of the client, with any replies, the retry
    wrapper finishes, posts at most [max_retries + 1] requests and sleeps at
    most [max_retries] times (no request and no sleep at all when
    [max_retries] is negative). *)
Theorem backoff_around_call_is_bounded (c : Call) (max_retries : Z)
    (initial_delay : Q) (w : World) :
  exists o w',
    run_with_backoff (run_call py_repr self c) max_retries initial_delay w
    = Some (o, w') /\
    (length (sent w') <= length (sent w) + Z.to_nat (max_retries + 1))%nat /\
    (length (slept w') <= length (slept w) + Z.to_nat max_retries)%nat.
Proof.
  destruct (run_with_backoff_total (run_call py_repr self c) max_retries
              initial_delay w) as [[o w'] Hrun].
  exists o, w'. split; [exact Hrun|].
  unfold run_with_backoff in Hrun.
  apply backoff_loop_effort in Hrun.
  - rewrite Z.sub_0_r in Hrun. exact Hrun.
  - intros w0.
    destruct (one_exchange_run_call py_repr self c w0)
      as (_ & Hz & _ & [[Hs _]|(body & Hs & _)]);
      rewrite Hs; split; try done; rewrite ?length_app; simpl; lia.
Qed.

Variable model_name : string.
Variable params : gmap string JValue.

#[local] Abbreviation op := (text_to_image py_repr self model_name params).
#[local] Abbreviation rq :=
  (mkRequest (BASE_URL +:+ model_name) params (api_headers self)).

Lemma waits_length u (d : Q) (k n : nat) : length (waits u d k n) = n.
Proof.
  revert d k. induction n as [|n IH]; intros d k; simpl; [done|by rewrite IH].
Qed.

Lemma doubled_nonneg (d : Q) (n : nat) : (0 <= d -> 0 <= doubled d n)%Q.
Proof.
  revert d. induction n as [|n IH]; intros d Hd; cbn [doubled]; [done|].
  apply IH. lra.
Qed.

Lemma pow2_succ (n : nat) :
  (inject_Z (2 ^ Z.of_nat (S n)) == 2 * inject_Z (2 ^ Z.of_nat n))%Q.
Proof. by rewrite Nat2Z.inj_succ, Z.pow_succ_r, inject_Z_mult by lia. Qed.

Lemma total_waits_bounds u (d : Q) (k n : nat) :
  (0 <= d)%Q ->
  (forall i, 0 <= u i <= 1 # 10)%Q ->
  (d * (inject_Z (2 ^ Z.of_nat n) - 1) <= total (waits u d k n) /\
   total (waits u d k n) <= (11 # 10) * d * (inject_Z (2 ^ Z.of_nat n) - 1))%Q.
Proof.
  intros Hd Hu. revert d k Hd.
  induction n as [|n IH]; intros d k Hd.
  - change (inject_Z (2 ^ Z.of_nat 0)) with 1%Q. unfold total. cbn [waits fold_right].
    split; lra.
  - cbn [waits]. change (total (?x :: ?l)) with (x + total l)%Q.
    assert (Hd2 : (0 <= d * 2)%Q) by lra.
    destruct (IH (d * 2)%Q (S k) Hd2) as [Hlo Hhi].
    destruct (jitter_bounds (u k) d Hd (Hu k)) as [Hj0 Hj1].
    rewrite pow2_succ.
    set (q := inject_Z (2 ^ Z.of_nat n)) in *.
    set (t := total (waits u (d * 2) (S k) n)) in *.
    set (j := (u k * d)%Q) in *.
    split; lra.
Qed.

(** X16. After any number of rate-limited replies within the budget,
    followed by a reply that classifies to a result, the wrapper returns
    that result with one post per reply and one pause per refusal; pause
    number [i] (from 0) lasts [initial_delay * 2^i] plus a jitter between 0
    and a tenth of that. *)
Theorem backoff_pauses_double (max_retries : Z) (rs : list Response)
    (r : Response) (rest : list Response) (res : PyResult)
    (initial_delay : Q) (w : World) :
  network w = rs ++ r :: rest ->
  Forall rate_limited rs ->
  Z.of_nat (length rs) <= max_retries ->
  _handle_response py_repr r = Return res ->
  (0 <= initial_delay)%Q ->
  (forall k, 0 <= uniform w k <= 1 # 10)%Q ->
  exists w' pauses,
    run_with_backoff op max_retries initial_delay w = Some (Return res, w') /\
    sent w' = sent w ++ repeat rq (S (length rs)) /\
    slept w' = slept w ++ pauses /\
    length pauses = length rs /\
    forall i p, pauses !! i = Some p ->
      exists j, (p == base_delay initial_delay i + j /\
                 0 <= j <= (1 # 10) * base_delay initial_delay i)%Q.
Proof.
  intros Hn Hrs Hm Hres Hd Hu.
  assert (Hu0 : (forall k, 0 <= uniform w k)%Q) by (intros k; apply Hu).
  eexists _, (waits (uniform w) initial_delay (drawn w) (length rs)).
  split; [by apply (backoff_succeeds_after_refusals py_repr self model_name params
                      max_retries rs r rest res)|].
  split; [done|]. split; [done|]. split; [apply waits_length|].
  intros i p Hp.
  assert (Hi : (i < length rs)%nat).
  { apply lookup_lt_Some in Hp. by rewrite waits_length in Hp. }
  rewrite waits_lookup in Hp by done. injection Hp as <-.
  pose proof (doubled_base_delay initial_delay i) as E.
  pose proof (doubled_nonneg initial_delay i Hd) as Hdi.
  destruct (jitter_bounds (uniform w (drawn w + i)) (doubled initial_delay i)
              Hdi (Hu _)) as [Hj0 Hj1].
  exists (uniform w (drawn w + i) * doubled initial_delay i)%Q.
  set (D := doubled initial_delay i) in *.
  set (B := base_delay initial_delay i) in *.
  set (j := (uniform w (drawn w + i) * D)%Q) in *.
  repeat split; lra.
Qed.

(** X17. In such a run the time slept in total lies between
    [initial_delay * (2^k - 1)] and eleven tenths of it, where [k] is the
    number of refusals. *)
Theorem backoff_total_sleep_bounds (max_retries : Z) (rs : list Response)
    (r : Response) (rest : list Response) (res : PyResult)
    (initial_delay : Q) (w : World) :
  network w = rs ++ r :: rest ->
  Forall rate_limited rs ->
  Z.of_nat (length rs) <= max_retries ->
  _handle_response py_repr r = Return res ->
  (0 <= initial_delay)%Q ->
  (forall k, 0 <= uniform w k <= 1 # 10)%Q ->
  exists w' pauses,
    run_with_backoff op max_retries initial_delay w = Some (Return res, w') /\
    slept w' = slept w ++ pauses /\
    (initial_delay * (inject_Z (2 ^ Z.of_nat (length rs)) - 1) <= total pauses /\
     total pauses <=
       (11 # 10) * initial_delay * (inject_Z (2 ^ Z.of_nat (length rs)) - 1))%Q.
Proof.
  intros Hn Hrs Hm Hres Hd Hu.
  assert (Hu0 : (forall k, 0 <= uniform w k)%Q) by (intros k; apply Hu).
  eexists _, (waits (uniform w) initial_delay (drawn w) (length rs)).
  split; [by apply (backoff_succeeds_after_refusals py_repr self model_name params
                      max_retries rs r rest res)|].
  split; [done|]. by apply total_waits_bounds.
Qed.

(** X18. When as many rate-limited replies as [max_retries] allows are
    followed by one more, the wrapper gives up with the exception that the
    last reply was classified to, after [max_retries + 1] posts and
    [max_retries] pauses. *)
Theorem backoff_gives_up_after_budget (max_retries : Z) (rs : list Response)
    (r : Response) (rest : list Response) (initial_delay : Q) (w : World) :
  network w = rs ++ r :: rest ->
  Forall rate_limited rs ->
  rate_limited r ->
  Z.of_nat (length rs) = max_retries ->
  (0 <= initial_delay)%Q ->
  (forall k, 0 <= uniform w k)%Q ->
  exists e w',
    _handle_response py_repr r = Raise e /\
    run_with_backoff op max_retries initial_delay w = Some (Raise e, w') /\
    sent w' = sent w ++ repeat rq (S (length rs)) /\
    length (slept w') = (length (slept w) + length rs)%nat /\
    network w' = rest.
Proof.
  intros Hn Hrs Hr Hm Hd Hu.
  destruct (rate_limited_raises py_repr r Hr) as (msg & Hh & _).
  eexists _, _. split; [exact Hh|]. split.
  - rewrite <- Hh.
    by apply (backoff_exhausted_after_budget py_repr self model_name params
                max_retries rs r rest).
  - cbn [sent slept network]. split; [done|]. split; [|done].
    by rewrite length_app, waits_length.
Qed.

End BackoffDispatchMore.

(** ** The model classes *)
Section ModelsFacts.

Context `{PIL : ImageCodec}.
Variable py_repr : JValue -> string.
Variable save_image : PyResult -> string -> M string.

#[local] Abbreviation generate := (generate_image py_repr save_image).

Lemma generate_image_unfold (m : ImageModel) self image_url image_path save_path
    image_base64_kw kwargs :
  generate m self image_url image_path save_path image_base64_kw kwargs =
  bind (with_image_source image_url image_path image_base64_kw
          (fun u b => run_call py_repr (api self) (model_call m u b kwargs)))
       (save_and_return save_image save_path).
Proof. by destruct m. Qed.

(** X19. Every image model given a local path that does not exist (and no
    URL) raises [FileNotFoundError] naming the path; nothing is posted and
    nothing is saved. *)
Theorem generate_image_missing_file (m : ImageModel) self
    (image_url image_path save_path : option string)
    (image_base64_kw : option (option string))
    (kwargs : gmap string JValue) (path : string) (w : World) :
  truthy_val image_path = Some path ->
  truthy_val image_url = None ->
  files w !! path = None ->
  generate m self image_url image_path save_path image_base64_kw kwargs w =
    (Raise (mkExn FileNotFoundError ("Image file not found: " +:+ path)), w).
Proof.
  intros Hp Hu Hf. rewrite generate_image_unfold.
  unfold with_image_source. rewrite Hp, Hu.
  unfold bind, local_image_base64, bind, load_image_from_path.
  by rewrite Hf.
Qed.

(** X20. When a URL is given, an image model ignores the local path
    altogether: the run is the one without the path, whether or not the file
    exists. *)
Theorem generate_image_url_wins (m : ImageModel) self
    (image_url image_path save_path : option string)
    (image_base64_kw : option (option string))
    (kwargs : gmap string JValue) (url : string) :
  truthy_val image_url = Some url ->
  generate m self image_url image_path save_path image_base64_kw kwargs =
  generate m self image_url None save_path image_base64_kw kwargs.
Proof.
  intros Hu. rewrite !generate_image_unfold.
  unfold with_image_source. rewrite Hu. cbn [truthy_val].
  by destruct (truthy_val image_path).
Qed.

(** X21. Without a usable local path, an image model hands the URL and the
    [image_base64] keyword to the client.  With no [model_name] among the
    extra keywords, unless exactly one of the two sources is given the run
    ends in the client's [ValueError] with nothing posted and nothing saved;
    in particular an empty path alone is a [ValueError] here.  With a
    [model_name] keyword the run ends in [TypeError], whatever the sources,
    again with nothing posted and nothing saved. *)
Theorem generate_image_rejects_sources (m : ImageModel) self
    (image_url image_path save_path : option string)
    (image_base64_kw : option (option string))
    (kwargs : gmap string JValue) (w : World) :
  truthy_val image_path = None ->
  (kwargs !! "model_name" = None ->
   count_not_None [image_url; None; kw_value image_base64_kw] <> 1 ->
   exists msg,
     generate m self image_url image_path save_path image_base64_kw kwargs w =
       (Raise (mkExn ValueError msg), w)) /\
  (is_Some (kwargs !! "model_name") ->
   exists msg,
     generate m self image_url image_path save_path image_base64_kw kwargs w =
       (Raise (mkExn TypeError msg), w)).
Proof.
  intros Hp. rewrite generate_image_unfold.
  unfold with_image_source. rewrite Hp. split.
  - intros Hkw Hn.
    destruct (image_call_rejects py_repr (api self)
                (model_call m image_url (kw_value image_base64_kw) kwargs)
                [image_url; None; kw_value image_base64_kw] w)
      as [msg Hrun]; [by destruct m|done|by destruct m|].
    exists msg. unfold bind. by rewrite Hrun.
  - intros Hkw. eexists. unfold bind.
    rewrite (run_call_collision py_repr (api self)
               (model_call m image_url (kw_value image_base64_kw) kwargs) w);
      [reflexivity|by destruct m|by destruct m].
Qed.

Lemma forward_image_to_image_inline (self : SegmindAPI) model_name (src : string)
    (params : gmap string JValue) :
  src <> "" ->
  params !! "model_name" = None ->
  forward params
    (image_to_image py_repr self model_name None None (Some src) params)
  = text_to_image py_repr self model_name (<["image" := JStr src]> params).
Proof.
  intros Hs Hm. unfold forward. rewrite Hm. cbn [is_not_None].
  apply image_to_image_one_source, Hs.
Qed.

Lemma model_call_inline (m : ImageModel) (self : SegmindAPI) (src : string)
    (kwargs : gmap string JValue) :
  src <> "" ->
  kwargs !! "model_name" = None ->
  exists body,
    run_call py_repr self (model_call m None (Some src) kwargs) =
      text_to_image py_repr self
        (endpoint_of (model_call m None (Some src) kwargs)) body /\
    body !! "image" = Some (JStr src).
Proof.
  intros Hs Hkw.
  destruct m; cbn [model_call run_call endpoint_of];
    eexists; (split; [|apply lookup_insert_eq]);
    first [ unfold sd_outpainting | unfold word2img | unfold background_removal
          | unfold codeformer | unfold sam | unfold face_swap | unfold controlnet ];
    apply forward_image_to_image_inline; try done;
    rewrite lookup_union_r by done;
    rewrite ?set_truthy_lookup_ne, ?lookup_insert_ne by done; done.
Qed.

(** X22. An image model given a usable local path (and no URL) does not send
    the file as it is: it opens it with Pillow, saves it again as JPEG and
    posts that as a data URL under [image], to the endpoint of the model.
    Decoding the posted text gives the re-encoded bytes. *)
Theorem generate_image_posts_reencoded_jpeg (m : ImageModel) self
    (image_url image_path save_path : option string)
    (kwargs : gmap string JValue) (path : string) (data buf : bytes)
    (img : Image) (w : World) :
  truthy_val image_path = Some path ->
  truthy_val image_url = None ->
  truthy_val save_path = None ->
  files w !! path = Some data ->
  Image_open data = Some img ->
  Image_save img "JPEG" = Some buf ->
  kwargs !! "model_name" = None ->
  exists s body,
    sent (generate m self image_url image_path save_path None kwargs w).2 =
      sent w ++ [mkRequest
                   (BASE_URL +:+ endpoint_of (model_call m None (Some s) kwargs))
                   body (api_headers (api self))] /\
    body !! "image" = Some (JStr s) /\
    startswith s "data:image/jpeg;base64," = true /\
    base64_to_image s = opened buf.
Proof.
  intros Hp Hu Hsave Hf Hopen Hjpeg Hkw.
  destruct (image_to_base64_jpeg img buf Hjpeg) as (s & Henc & Hne & Hpre & Hdec).
  destruct (model_call_inline m (api self) s kwargs Hne Hkw) as (body & Hcall & Himg).
  exists s, body. split; [|by repeat split].
  rewrite generate_image_unfold.
  unfold with_image_source. rewrite Hp, Hu.
  unfold bind at 1. unfold bind at 1.
  unfold local_image_base64, bind, load_image_from_path, lift.
  rewrite Hf, Hopen, Henc, Hcall.
  unfold save_and_return. rewrite Hsave.
  pose proof (text_to_image_sent py_repr (api self)
                (endpoint_of (model_call m None (Some s) kwargs)) body w) as Hsent.
  destruct (text_to_image _ _ _ _ w) as [[res|e] w1]; exact Hsent.
Qed.

End ModelsFacts.

(** ** More runs on concrete inputs *)
Section MoreRuns.

Import Samples.

#[local] Abbreviation png_bytes := [Byte.x89; Byte.x50; Byte.x4e; Byte.x47].
#[local] Abbreviation files1 := ({["a.png" := png_bytes]} : gmap string bytes).
#[local] Abbreviation keep_path :=
  (fun (_ : @PyResult RawCodec) (path : string) => @ret string path).
#[local] Abbreviation model := (mkModel api).

Lemma base64_to_image_ignores_header_run :
  @base64_to_image RawCodec ("data:text/plain;base64" +:+ "," +:+
                             Base64.b64encode png_bytes) = Return png_bytes /\
  @base64_to_image RawCodec (Base64.b64encode png_bytes) = Return png_bytes.
Proof.
  exact (@base64_to_image_ignores_header RawCodec "data:text/plain;base64"
           png_bytes eq_refl).
Defined.

Lemma image_to_base64_then_decode_run :
  exists s,
    @image_to_base64 RawCodec png_bytes "JPEG" = Return s /\
    startswith s ("data:image/" +:+ lower "JPEG" +:+ ";base64,") = true /\
    @base64_to_image RawCodec s = Return png_bytes.
Proof.
  exact (@image_to_base64_then_decode RawCodec png_bytes "JPEG" png_bytes
           eq_refl eq_refl).
Defined.

Lemma init_credential_precedence_run :
  exists self,
    __init__ (Some "") {["SEGMIND_API_KEY" := "sk-env"]} = Return self /\
    api_key self = "sk-env".
Proof.
  apply (proj2 (proj2 (init_credential_precedence (Some "")
                         {["SEGMIND_API_KEY" := "sk-env"]})) "sk-env");
    reflexivity.
Defined.

Lemma image_to_image_forwards_source_run :
  @image_to_image RawCodec no_repr api "sam" (Some "http://host/a.jpg") None None
    {["image" := JStr "other"]}
  = @text_to_image RawCodec no_repr api "sam"
      (<["image" := JStr "http://host/a.jpg"]> {["image" := JStr "other"]}) /\
  @image_to_image RawCodec no_repr api "sam" None None (Some "http://host/a.jpg")
    {["image" := JStr "other"]}
  = @text_to_image RawCodec no_repr api "sam"
      (<["image" := JStr "http://host/a.jpg"]> {["image" := JStr "other"]}).
Proof.
  apply (@image_to_image_forwards_source RawCodec no_repr api "sam"
           "http://host/a.jpg" {["image" := JStr "other"]}).
  discriminate.
Defined.

Lemma image_to_image_missing_file_run :
  exists msg,
    @image_to_image RawCodec no_repr api "sam" None (Some "gone.png") None ∅
      (world [ok_image] files1 0)
    = (Raise (mkExn FileNotFoundError msg), world [ok_image] files1 0).
Proof.
  apply (@image_to_image_missing_file RawCodec no_repr api "sam" "gone.png" ∅
           (world [ok_image] files1 0)).
  - discriminate.
  - reflexivity.
Defined.

Lemma image_to_image_local_file_round_trip_run :
  exists s,
    @image_to_image RawCodec no_repr api "sam" None (Some "a.png") None ∅
      (world [ok_image] files1 0)
    = (@_handle_response RawCodec no_repr ok_image,
       mkWorld []
         ([] ++ [mkRequest (BASE_URL +:+ "sam") (<["image" := JStr s]> ∅)
                   (api_headers api)])
         files1 (fun _ => 0%Q) O []) /\
    startswith s "data:image/jpeg;base64," = true /\
    @base64_to_image RawCodec s = Return png_bytes.
Proof.
  exact (@image_to_image_local_file_round_trip RawCodec no_repr api "sam" "a.png" ∅
           png_bytes ok_image [] (world [ok_image] files1 0)
           ltac:(discriminate) eq_refl eq_refl).
Defined.

Lemma failure_body_not_an_object_run :
  exists msg,
    @_handle_response RawCodec no_repr (mkResponse 500 ∅ [] (Some JNull))
    = Raise (mkExn TypeError msg).
Proof.
  apply (proj1 (@failure_body_not_an_object RawCodec no_repr
                  (mkResponse 500 ∅ [] (Some JNull)) ltac:(discriminate))).
  by left.
Defined.

Lemma image_calls_reject_source_count_run :
  (exists msg,
     @run_call RawCodec no_repr api
       (CallControlnet "a cat" None None None "canny" ∅) (world [ok_image] ∅ 0)
     = (Raise (mkExn ValueError msg), world [ok_image] ∅ 0)) /\
  (exists msg,
     @run_call RawCodec no_repr api
       (CallControlnet "a cat" None None None "canny" {["model_name" := JStr "sam"]})
       (world [ok_image] ∅ 0)
     = (Raise (mkExn TypeError msg), world [ok_image] ∅ 0)).
Proof.
  split.
  - exact (proj1 (@image_calls_reject_source_count RawCodec no_repr api
                    (CallControlnet "a cat" None None None "canny" ∅)
                    [None; None; None] (world [ok_image] ∅ 0)
                    eq_refl ltac:(discriminate))
             eq_refl).
  - exact (proj1 (proj2 (@image_calls_reject_source_count RawCodec no_repr api
                    (CallControlnet "a cat" None None None "canny"
                       {["model_name" := JStr "sam"]})
                    [None; None; None] (world [ok_image] ∅ 0)
                    eq_refl ltac:(discriminate)))
             eq_refl ltac:(by exists (JStr "sam"))).
Defined.

Lemma veo_3_returns_raw_body_run :
  (@veo_3 RawCodec no_repr api "a river" None ∅ (world [ok_image] ∅ 0)).1
  = Return (@RBytes RawCodec [Byte.xff; Byte.xd8; Byte.xff]).
Proof.
  exact (@veo_3_returns_raw_body RawCodec no_repr api "a river" None ∅ ok_image []
           (world [ok_image] ∅ 0) eq_refl).
Defined.

Lemma sdxl_leaves_out_absent_options_run :
  (exists body,
     sent (@sdxl RawCodec no_repr api "a cat" None (Some 30) None None false ∅
             (world [ok_image] ∅ 0)).2
     = [] ++ [mkRequest (BASE_URL +:+ "sdxl1.0-txt2img") body (api_headers api)] /\
     body !! "prompt" = Some (JStr "a cat") /\
     body !! "base64" = Some (JBool false) /\
     body !! "negative_prompt" = None /\
     body !! "steps" = Some (JInt 30) /\
     body !! "seed" = None /\
     body !! "aspect_ratio" = None /\
     (forall k, ~ In k ["prompt"; "base64"; "negative_prompt"; "steps"; "seed";
                        "aspect_ratio"] -> body !! k = (∅ : gmap string JValue) !! k)) /\
  (exists msg,
     @sdxl RawCodec no_repr api "a cat" None (Some 30) None None false
       {["model_name" := JStr "sam"]} (world [ok_image] ∅ 0)
     = (Raise (mkExn TypeError msg), world [ok_image] ∅ 0)).
Proof.
  split.
  - apply (proj1 (@sdxl_leaves_out_absent_options RawCodec no_repr api "a cat" None
                    (Some 30) None None false ∅ (world [ok_image] ∅ 0)
                    (fun k _ => lookup_empty k))).
    reflexivity.
  - apply (proj2 (@sdxl_leaves_out_absent_options RawCodec no_repr api "a cat" None
                    (Some 30) None None false {["model_name" := JStr "sam"]}
                    (world [ok_image] ∅ 0)
                    ltac:(intros k Hk; apply lookup_singleton_ne; simpl in Hk;
                          intros <-; intuition discriminate))).
    by exists (JStr "sam").
Defined.

Lemma run_with_backoff_negative_budget_run :
  run_with_backoff (@text_to_image RawCodec no_repr api "sam" ∅) (-1) 1
    (world [ok_image] ∅ 0)
  = Some (Raise (mkExn PlainException
                   ("Failed after " +:+ str_of_int (-1) +:+ " retries")),
          world [ok_image] ∅ 0).
Proof.
  apply (run_with_backoff_negative_budget
           (@text_to_image RawCodec no_repr api "sam" ∅) (-1) 1
           (world [ok_image] ∅ 0)).
  reflexivity.
Defined.

Lemma run_with_backoff_passes_through_run :
  run_with_backoff (@text_to_image RawCodec no_repr api "sam" ∅) 5 1
    (world [unauthorized] ∅ 0)
  = Some (@text_to_image RawCodec no_repr api "sam" ∅ (world [unauthorized] ∅ 0)).
Proof.
  apply (run_with_backoff_passes_through
           (@text_to_image RawCodec no_repr api "sam" ∅) 5 1
           (world [unauthorized] ∅ 0)).
  - discriminate.
  - intros e He. vm_compute in He. injection He as <-. reflexivity.
Defined.

Lemma one_too_many : Forall rate_limited [too_many].
Proof. constructor; [exact too_many_rate_limited|constructor]. Defined.

Lemma backoff_pauses_double_run :
  exists w' pauses,
    run_with_backoff (@text_to_image RawCodec no_repr api "sam" ∅) 5 1
      (world [too_many; ok_json] ∅ (1 # 20))
    = Some (Return (@RJson RawCodec (JObj {["foo" := JStr "bar"]})), w') /\
    sent w' = [] ++ repeat (mkRequest (BASE_URL +:+ "sam") ∅ (api_headers api)) 2 /\
    slept w' = [] ++ pauses /\
    length pauses = 1%nat /\
    forall i p, pauses !! i = Some p ->
      exists j, (p == base_delay 1 i + j /\ 0 <= j <= (1 # 10) * base_delay 1 i)%Q.
Proof.
  apply (@backoff_pauses_double RawCodec no_repr api "sam" ∅ 5 [too_many] ok_json []
           (RJson (JObj {["foo" := JStr "bar"]})) 1
           (world [too_many; ok_json] ∅ (1 # 20))).
  - reflexivity.
  - exact one_too_many.
  - discriminate.
  - reflexivity.
  - discriminate.
  - exact twentieth_in_range.
Defined.

Lemma backoff_total_sleep_bounds_run :
  exists w' pauses,
    run_with_backoff (@text_to_image RawCodec no_repr api "sam" ∅) 5 1
      (world [too_many; ok_json] ∅ (1 # 20))
    = Some (Return (@RJson RawCodec (JObj {["foo" := JStr "bar"]})), w') /\
    slept w' = [] ++ pauses /\
    (1 * (inject_Z (2 ^ Z.of_nat 1) - 1) <= total pauses /\
     total pauses <= (11 # 10) * 1 * (inject_Z (2 ^ Z.of_nat 1) - 1))%Q.
Proof.
  apply (@backoff_total_sleep_bounds RawCodec no_repr api "sam" ∅ 5 [too_many]
           ok_json [] (RJson (JObj {["foo" := JStr "bar"]})) 1
           (world [too_many; ok_json] ∅ (1 # 20))).
  - reflexivity.
  - exact one_too_many.
  - discriminate.
  - reflexivity.
  - discriminate.
  - exact twentieth_in_range.
Defined.

Lemma backoff_gives_up_after_budget_run :
  exists e w',
    @_handle_response RawCodec no_repr too_many = Raise e /\
    run_with_backoff (@text_to_image RawCodec no_repr api "sam" ∅) 1 1
      (world [too_many; too_many; ok_json] ∅ (1 # 20))
    = Some (Raise e, w') /\
    sent w' = [] ++ repeat (mkRequest (BASE_URL +:+ "sam") ∅ (api_headers api)) 2 /\
    length (slept w') = (0 + 1)%nat /\
    network w' = [ok_json].
Proof.
  apply (@backoff_gives_up_after_budget RawCodec no_repr api "sam" ∅ 1 [too_many]
           too_many [ok_json] 1 (world [too_many; too_many; ok_json] ∅ (1 # 20))).
  - reflexivity.
  - exact one_too_many.
  - exact too_many_rate_limited.
  - reflexivity.
  - discriminate.
  - intros k. discriminate.
Defined.

Lemma generate_image_missing_file_run :
  @generate_image RawCodec no_repr keep_path ModelSAM model None (Some "gone.png")
    (Some "out.png") None ∅ (world [ok_image] files1 0)
  = (Raise (mkExn FileNotFoundError ("Image file not found: " +:+ "gone.png")),
     world [ok_image] files1 0).
Proof.
  exact (@generate_image_missing_file RawCodec no_repr keep_path ModelSAM model None
           (Some "gone.png") (Some "out.png") None ∅ "gone.png"
           (world [ok_image] files1 0) eq_refl eq_refl eq_refl).
Defined.

Lemma generate_image_url_wins_run :
  @generate_image RawCodec no_repr keep_path (ModelFaceSwap None) model
    (Some "http://host/a.jpg") (Some "gone.png") None None ∅
  = @generate_image RawCodec no_repr keep_path (ModelFaceSwap None) model
      (Some "http://host/a.jpg") None None None ∅.
Proof.
  exact (@generate_image_url_wins RawCodec no_repr keep_path (ModelFaceSwap None)
           model (Some "http://host/a.jpg") (Some "gone.png") None None ∅
           "http://host/a.jpg" eq_refl).
Defined.

Lemma generate_image_rejects_sources_run :
  (exists msg,
     @generate_image RawCodec no_repr keep_path ModelCodeformer model None (Some "")
       None None ∅ (world [ok_image] ∅ 0)
     = (Raise (mkExn ValueError msg), world [ok_image] ∅ 0)) /\
  (exists msg,
     @generate_image RawCodec no_repr keep_path ModelCodeformer model
       (Some "http://host/face.jpg") None None None {["model_name" := JStr "sam"]}
       (world [ok_image] ∅ 0)
     = (Raise (mkExn TypeError msg), world [ok_image] ∅ 0)).
Proof.
  split.
  - exact (proj1 (@generate_image_rejects_sources RawCodec no_repr keep_path
                    ModelCodeformer model None (Some "") None None ∅
                    (world [ok_image] ∅ 0) eq_refl)
             eq_refl ltac:(discriminate)).
  - exact (proj2 (@generate_image_rejects_sources RawCodec no_repr keep_path
                    ModelCodeformer model (Some "http://host/face.jpg") None None None
                    {["model_name" := JStr "sam"]} (world [ok_image] ∅ 0) eq_refl)
             ltac:(by exists (JStr "sam"))).
Defined.

Lemma generate_image_posts_reencoded_jpeg_run :
  exists s body,
    sent (@generate_image RawCodec no_repr keep_path ModelSAM model None
            (Some "a.png") None None ∅ (world [ok_image] files1 0)).2
    = [] ++ [mkRequest (BASE_URL +:+ endpoint_of (model_call ModelSAM None (Some s) ∅))
               body (api_headers api)] /\
    body !! "image" = Some (JStr s) /\
    startswith s "data:image/jpeg;base64," = true /\
    @base64_to_image RawCodec s = Return png_bytes.
Proof.
  exact (@generate_image_posts_reencoded_jpeg RawCodec no_repr keep_path ModelSAM
           model None (Some "a.png") None ∅ "a.png" png_bytes png_bytes png_bytes
           (world [ok_image] files1 0)
           eq_refl eq_refl eq_refl eq_refl eq_refl eq_refl eq_refl).
Defined.

Lemma credential_resolved_at_construction_run :
  (exists msg, __init__ None ∅ = Raise (mkExn ValueError msg)) /\
  (exists self,
     __init__ None {["SEGMIND_API_KEY" := "sk-env"]} = Return self /\
     api_key self = "sk-env" /\
     api_headers self !! "x-api-key" = Some "sk-env" /\
     (forall model_name params w,
        exists rq,
          sent (@text_to_image RawCodec no_repr self model_name params w).2
            = sent w ++ [rq] /\
          req_url rq = BASE_URL +:+ model_name /\
          req_json rq = params /\
          req_headers rq !! "x-api-key" = Some "sk-env") /\
     (forall c w,
        if reaches_network c w then
          exists rq,
            sent (@run_call RawCodec no_repr self c w).2 = sent w ++ [rq] /\
            req_url rq = BASE_URL +:+ endpoint_of c /\
            req_headers rq !! "x-api-key" = Some "sk-env"
        else
          exists e, @run_call RawCodec no_repr self c w = (Raise e, w)) /\
     (forall cs w, exists new,
        sent (@run_calls RawCodec no_repr self cs w).2 = sent w ++ new /\
        Forall (fun rq => req_headers rq !! "x-api-key" = Some "sk-env") new)).
Proof.
  split.
  - exact (proj1 (@credential_resolved_at_construction RawCodec no_repr None ∅)
             eq_refl eq_refl).
  - apply (proj2 (@credential_resolved_at_construction RawCodec no_repr None
                    {["SEGMIND_API_KEY" := "sk-env"]}) "sk-env").
    + discriminate.
    + right. split; reflexivity.
Defined.

End MoreRuns.
